(** * Wildfire proximity computation (Notebooks/1.using_reader.ipynb)

    A shallow embedding of the three pieces of code of the notebook:

    - [convert_ring_to_epsg4326]: reprojection of a ring of coordinates,
    - [shortest_distance_from_place_to_fire_perimeter]: linear scan for the
      closest perimeter point,
    - the filter-and-export loop over [gj_data['features']].

    Python numbers of the geodetic computation are IEEE binary64 values
    ([PrimFloat.float]); the mutable Python objects that the code shares
    (coordinate lists, attribute dicts) live in stores addressed by
    references, and the code is written in a state-and-exception monad over
    them.  The two [pyproj] entry points are an interface
    ([Pyproj]): every result below holds for any implementation of it. *)

From Stdlib Require Import ZArith Floats Lia.
From stdpp Require Import gmap strings list fin_maps.

Set Warnings "-inexact-float".

(** ** Python values and objects *)

(** Exceptions the embedded code can raise; all are subclasses of
    [Exception], hence caught by the loop's [except Exception as e]. *)
Inductive exn : Type :=
| KeyError (key : string)
| IndexError (msg : string)
| TypeError (msg : string)
| SystemError (msg : string).

(** [str(e)], as interpolated by [print(f"An error occurred : {e}")]. *)
Definition exn_str (e : exn) : string :=
  match e with
  | KeyError key => "'" +:+ key +:+ "'"
  | IndexError msg | TypeError msg | SystemError msg => msg
  end.

Inductive outcome (A : Type) : Type :=
| Returned (a : A)
| Raised (e : exn).
Arguments Returned {A} a.
Arguments Raised {A} e.

(** A coordinate pair: [(x, y)] in ESRI:102008, or [(lat, lon)] in
    EPSG:4326. *)
Definition coord : Type := float * float.

(** Values of the flat [attributes] mapping of a feature (JSON scalars). *)
Inductive attr_value : Type :=
| ANone
| ABool (b : bool)
| AInt (z : Z)
| AFloat (f : float)
| AStr (s : string).

(** The mutable objects of the notebook are lists of coordinates and
    attribute dicts.  A reference is a position in the store of its kind;
    allocation appends to the store. *)
Definition list_ref : Type := nat.
Definition dict_ref : Type := nat.

(** Items of the heterogeneous list [closest_point]: [[distance, point]]. *)
Inductive item : Type :=
| IFloat (d : float)
| IPoint (p : coord).

(** A feature of the collection.  Its own dicts are never written by the
    code, so they are records; a key that may be absent is an [option].
    The attribute dict and the rings are shared objects, held by reference. *)
Record geometry_dict : Type := Geometry { rings : option (list list_ref) }.
Record feature : Type := Feature {
  attributes : option dict_ref;
  geometry : option geometry_dict
}.

(** Interpreter state: the two object stores, the global [attributes_list]
    that the loop appends to, and the lines that [print] wrote to standard
    output.  Standard error, where [tqdm] draws its progress bar, is not
    part of it. *)
Record state : Type := State {
  lists : list (list coord);
  dicts : list (gmap string attr_value);
  attributes_list : list dict_ref;
  stdout : list string
}.

Definition set_lists (ls : list (list coord)) (st : state) : state :=
  State ls (dicts st) (attributes_list st) (stdout st).

Definition set_dicts (ds : list (gmap string attr_value)) (st : state) : state :=
  State (lists st) ds (attributes_list st) (stdout st).

(** ** State and exception monad *)

Definition M (A : Type) : Type := state → outcome A * state.

Global Instance M_ret : MRet M := λ A a st, (Returned a, st).

Global Instance M_bind : MBind M := λ A B f m st,
  match m st with
  | (Returned a, st') => f a st'
  | (Raised e, st') => (Raised e, st')
  end.

Definition raise {A : Type} (e : exn) : M A := λ st, (Raised e, st).

(** [for x in items: acc = body(acc, x)], over the items read at loop entry. *)
Fixpoint for_in {A S : Type} (items : list A) (body : S → A → M S) (acc : S) : M S :=
  match items with
  | [] => mret acc
  | x :: rest => acc' ← body acc x; for_in rest body acc'
  end.

(** ** Object operations *)

(** Python has no dangling reference; on one the model raises, so that
    every operation is total. *)
Definition invalid_reference : exn := SystemError "invalid reference".

(** [list()] *)
Definition list_new : M list_ref := λ st,
  (Returned (length (lists st)), set_lists (lists st ++ [[]]) st).

(** The items of the list object [l], as a [for] loop over it reads them.
    The loops of the notebook write only to lists they have just created,
    never to the list they run over, so the items are those at loop entry. *)
Definition list_items (l : list_ref) : M (list coord) := λ st,
  match lists st !! l with
  | Some items => (Returned items, st)
  | None => (Raised invalid_reference, st)
  end.

(** [l.append(x)] *)
Definition list_append (l : list_ref) (x : coord) : M unit := λ st,
  match lists st !! l with
  | Some items => (Returned (), set_lists (<[l := items ++ [x]]> (lists st)) st)
  | None => (Raised invalid_reference, st)
  end.

(** [d[key]] *)
Definition dict_getitem (d : dict_ref) (key : string) : M attr_value := λ st,
  match dicts st !! d with
  | Some items =>
      match items !! key with
      | Some v => (Returned v, st)
      | None => (Raised (KeyError key), st)
      end
  | None => (Raised invalid_reference, st)
  end.

(** [d[key] = v] *)
Definition dict_setitem (d : dict_ref) (key : string) (v : attr_value) : M unit := λ st,
  match dicts st !! d with
  | Some items => (Returned (), set_dicts (<[d := <[key := v]> items]> (dicts st)) st)
  | None => (Raised invalid_reference, st)
  end.

(** [feature[key]] for a key that may be absent. *)
Definition getitem {A : Type} (key : string) (field : option A) : M A :=
  match field with
  | Some v => mret v
  | None => raise (KeyError key)
  end.

(** [l[0]] *)
Definition getitem0 {A : Type} (l : list A) : M A :=
  match l with
  | x :: _ => mret x
  | [] => raise (IndexError "list index out of range")
  end.

(** ** The pyproj interface *)

(** [Transformer.from_crs(src, dst).transform(x, y)] and
    [Geod(ellps=e).inv(lon1, lat1, lon2, lat2)], the latter returning
    (forward azimuth, back azimuth, distance in meters).  Both are called
    on numbers and, as the code calls them, return numbers without raising;
    what they return is left open, NaN included. *)
Class Pyproj : Type := {
  Transformer_from_crs : string → string → float → float → float * float;
  Geod : string → float → float → float → float → float * float * float
}.

(** A stand-in used to run the code on concrete data: coordinates are taken
    as degrees already, and the distance is |dlat| + |dlon| degrees of
    111 km each. *)
Definition flat_pyproj : Pyproj := {|
  Transformer_from_crs := λ _ _ x y, (y, x);
  Geod := λ _ lon1 lat1 lon2 lat2,
    (0, 0, (abs (lat2 - lat1) + abs (lon2 - lon1)) * 111000)%float
|}.

(** A stand-in whose geodesic distance is a given number of meters. *)
Definition const_pyproj (meters : float) : Pyproj := {|
  Transformer_from_crs := λ _ _ x y, (y, x);
  Geod := λ _ _ _ _ _, (0%float, 0%float, meters)
|}.

(** A stand-in with a domain, as the library has one: a point outside
    [-180, 180] x [-90, 90] is sent to (inf, inf), what [transform] returns
    for a point it cannot transform, and the distance to a latitude outside
    [-90, 90] is NaN. *)
Definition bounded_pyproj : Pyproj := {|
  Transformer_from_crs := λ _ _ x y,
    if ((abs x <=? 180) && (abs y <=? 90))%float then (y, x) else (infinity, infinity);
  Geod := λ _ lon1 lat1 lon2 lat2,
    if (abs lat2 <=? 90)%float
    then (0, 0, (abs (lat2 - lat1) + abs (lon2 - lon1)) * 111000)%float
    else (nan, nan, nan)
|}.

(** ** The notebook *)

(** [CITY_LOCATION["West Odessa"]['latlon']] *)
Definition CITY_LOCATION_West_Odessa_latlon : coord := (31.8456, -102.3676)%float.

Section Notebook.
Context `{Pyproj}.

Definition convert_ring_to_epsg4326 (ring_data : list_ref) : M list_ref :=
  converted_ring ← list_new;
  let to_epsg4326 := Transformer_from_crs "ESRI:102008" "EPSG:4326" in
  coords ← list_items ring_data;
  for_in coords (λ (_ : unit) (coord : coord),
    let '(lat, lon) := to_epsg4326 coord.1 coord.2 in
    let new_coord := (lat, lon) in
    list_append converted_ring new_coord) ();;
  mret converted_ring.

(** [closest_point[0] > distance_in_miles] *)
Definition item_gt (c : item) (distance_in_miles : float) : M bool :=
  match c with
  | IFloat c0 => mret (distance_in_miles <? c0)%float
  | IPoint _ => raise (TypeError "'>' not supported between instances of 'tuple' and 'float'")
  end.

Definition shortest_distance_from_place_to_fire_perimeter
    (place : coord) (ring_data : list_ref) : M (list item) :=
  ring ← convert_ring_to_epsg4326 ring_data;
  let geodcalc := Geod "WGS84" in
  points ← list_items ring;
  for_in points (λ (closest_point : list item) (point : coord),
    let d := geodcalc place.2 place.1 point.2 point.1 in
    let distance_in_miles := (d.2 * 0.00062137)%float in
    match closest_point with
    | [] => mret ([] ++ [IFloat distance_in_miles] ++ [IPoint point])
    | c :: _ =>
        closer ← item_gt c distance_in_miles;
        if (closer : bool)
        then mret ([] ++ [IFloat distance_in_miles] ++ [IPoint point])
        else mret closest_point
    end) [].

(** [1963 <= wf_year <= 2023] *)
Definition year_in_bounds (wf_year : attr_value) : M bool :=
  match wf_year with
  | AInt y => mret ((1963 <=? y)%Z && (y <=? 2023)%Z)
  | AFloat y => mret ((1963 <=? y)%float && (y <=? 2023)%float)
  | ABool _ => mret false
  | ANone => raise (TypeError "'<=' not supported between instances of 'int' and 'NoneType'")
  | AStr _ => raise (TypeError "'<=' not supported between instances of 'int' and 'str'")
  end.

(** [attributes_list.append(d)] *)
Definition attributes_list_append (d : dict_ref) : M unit := λ st,
  (Returned (), State (lists st) (dicts st) (attributes_list st ++ [d]) (stdout st)).

(** The body of the [try] block. *)
Definition try_body (feature : feature) : M unit :=
  attrs ← getitem "attributes" (attributes feature);
  wf_year ← dict_getitem attrs "Fire_Year";
  in_bounds ← year_in_bounds wf_year;
  if (in_bounds : bool) then
    geom ← getitem "geometry" (geometry feature);
    all_rings ← getitem "rings" (rings geom);
    ring_data ← getitem0 all_rings;
    distance ← shortest_distance_from_place_to_fire_perimeter
                 CITY_LOCATION_West_Odessa_latlon ring_data;
    distance0 ← getitem0 distance;
    match distance0 with
    | IFloat d =>
        if (d <=? 1250.00)%float then
          feature_attributes ← getitem "attributes" (attributes feature);
          dict_setitem feature_attributes "Distance" (AFloat d);;
          attributes_list_append feature_attributes
        else mret ()
    | IPoint _ => raise (TypeError "'<=' not supported between instances of 'tuple' and 'float'")
    end
  else mret ().

(** [print(...)] *)
Definition print (line : string) (st : state) : state :=
  State (lists st) (dicts st) (attributes_list st) (stdout st ++ [line]).

(** One iteration of the loop: [try: ... except Exception as e: print(...)]. *)
Definition loop_iteration (st : state) (feature : feature) : state :=
  match try_body feature st with
  | (Returned _, st') => st'
  | (Raised e, st') => print ("An error occurred : " +:+ exn_str e) st'
  end.

(** [for feature in tqdm(gj_data['features']): ...]; [tqdm] yields the
    features in order. *)
Definition loop (features : list feature) (st : state) : state :=
  foldl loop_iteration st features.

(** The cell: [attributes_list = []], then the loop, run on the objects
    that loading the file created. *)
Definition filter_cell (features : list feature)
    (loaded_lists : list (list coord)) (loaded_dicts : list (gmap string attr_value)) : state :=
  loop features (State loaded_lists loaded_dicts [] []).

(** [pd.DataFrame(attributes_list)]: one row per entry, read from the dict
    the entry refers to. *)
Definition DataFrame (st : state) : list (option (gmap string attr_value)) :=
  (λ d, dicts st !! d) <$> attributes_list st.

End Notebook.

(** ** Sample data *)

(** The two-point ring of the specification's example, as the (x, y) pairs
    that [flat_pyproj] sends to (31.80, -102.40) and (31.90, -102.30). *)
Definition sample_ring : list coord := [(-102.40, 31.80); (-102.30, 31.90)]%float.

(** A ring far from the place: about 1546 miles under [flat_pyproj]. *)
Definition far_ring : list coord := [(-90.0, 41.9)]%float.

(** A loaded store: three rings, the second without points, and the
    attribute dicts of three fires. *)
Definition sample_lists : list (list coord) := [sample_ring; []; far_ring].
Definition sample_dicts : list (gmap string attr_value) :=
  [ {[ "Fire_Year" := AInt 2000 ]};
    {[ "Fire_Year" := AInt 1950 ]};
    {[ "Fire_Year" := AInt 2010 ]} ].
Definition sample_state : state := State sample_lists sample_dicts [] [].

(** A collection: a fire in range; one of 1950; one whose geometry has no
    [rings]; one whose ring has no point; one too far; the first again. *)
Definition sample_features : list feature :=
  [ Feature (Some 0) (Some (Geometry (Some [0; 2])));
    Feature (Some 1) (Some (Geometry (Some [0])));
    Feature (Some 2) (Some (Geometry None));
    Feature (Some 2) (Some (Geometry (Some [1])));
    Feature (Some 2) (Some (Geometry (Some [2; 0])));
    Feature (Some 0) (Some (Geometry (Some [0]))) ].

(** The sample ring with its first vertex repeated at the end, as the rings
    of a polygon are closed, and the sample ring in the other order. *)
Definition closed_ring : list coord :=
  [(-102.40, 31.80); (-102.30, 31.90); (-102.40, 31.80)]%float.
Definition reversed_ring : list coord := [(-102.30, 31.90); (-102.40, 31.80)]%float.
Definition ring_state : state := State [sample_ring; closed_ring; reversed_ring] [] [] [].

(** Rings with a vertex outside the domain of [bounded_pyproj], first or
    last, and rings with two vertices at the same distance from the place,
    (31.80, -102.40) and (31.8912, -102.40). *)
Definition nan_first_ring : list coord :=
  [(1e30, 1e30); (-102.40, 31.80); (-102.40, 31.8912)]%float.
Definition nan_later_ring : list coord := [(-102.40, 31.80); (1e30, 1e30)]%float.
Definition tied_ring : list coord :=
  [(-102.30, 31.90); (-102.40, 31.80); (-102.40, 31.8912)]%float.
Definition nan_state : state := State [nan_first_ring; nan_later_ring; tied_ring] [] [] [].

(** The number of meters that the conversion factor sends to 1250 miles. *)
Definition meters_of_1250_miles : float := (1250 / 0.00062137)%float.

(** ** Vocabulary of the statements *)

Section Vocabulary.
Context `{Pyproj}.

(** The WGS84 geodesic distance in miles from [place] to [point], both
    (lat, lon): the distance in meters that [Geod(ellps='WGS84').inv] gives
    for (lon, lat) of the one and (lon, lat) of the other, times
    0.00062137. *)
Definition distance_in_miles (place point : coord) : float :=
  ((Geod "WGS84" place.2 place.1 point.2 point.1).2 * 0.00062137)%float.

(** One coordinate through the transformer of [convert_ring_to_epsg4326]. *)
Definition reproject (c : coord) : coord :=
  Transformer_from_crs "ESRI:102008" "EPSG:4326" c.1 c.2.

(** Every vertex of [ring] is at a distance that is a number.  A NaN
    compares false with everything, so that it is neither below nor above
    any distance. *)
Definition distances_are_numbers (place : coord) (ring : list coord) : bool :=
  forallb (λ q, negb (is_nan (distance_in_miles place q))) ring.

(** [p], at distance [d], is the closest of the vertices [seen] and the
    first of them at that distance: no earlier vertex is as close, and no
    vertex is closer. *)
Definition closest_so_far (place : coord) (seen : list coord) (d : float) (p : coord) : Prop :=
  d = distance_in_miles place p ∧
  (∃ i, seen !! i = Some p ∧
        ∀ j q, j < i → seen !! j = Some q → (distance_in_miles place q <=? d)%float = false) ∧
  (∀ q, q ∈ seen → (distance_in_miles place q <? d)%float = false).

(** Some vertex of [ring] is within the threshold of 1250.00 miles. *)
Definition some_vertex_within (place : coord) (ring : list coord) : bool :=
  existsb (λ q, (distance_in_miles place q <=? 1250.00)%float) ring.

End Vocabulary.

(** The value stored under [Fire_Year] lies in the bound [1963, 2023]. *)
Definition year_within (wf_year : option attr_value) : Prop :=
  match wf_year with
  | Some (AInt y) => (1963 ≤ y ≤ 2023)%Z
  | Some (AFloat y) => (1963 <=? y)%float = true ∧ (y <=? 2023)%float = true
  | _ => False
  end.

(** The value stored under [Distance] is a number within the threshold. *)
Definition distance_within (distance : option attr_value) : Prop :=
  match distance with
  | Some (AFloat d) => (d <=? 1250)%float = true
  | _ => False
  end.

(** Every row of the table carries a year within the bound and a distance
    within the threshold. *)
Definition rows_within (rows : list (option (gmap string attr_value))) : Prop :=
  Forall (λ row, ∃ items, row = Some items ∧
                   year_within (items !! "Fire_Year") ∧
                   distance_within (items !! "Distance")) rows.

(** The state in which the record of attribute dict [a], at distance [d],
    has been retained: [Distance] is set in the dict and the dict is
    appended to [attributes_list]. *)
Definition retained (a : dict_ref) (items : gmap string attr_value) (d : float)
    (st : state) : state :=
  State (lists st) (<[a := <["Distance" := AFloat d]> items]> (dicts st))
        (attributes_list st ++ [a]) (stdout st).

(** From [st] to [st'] the store has only evolved as the loop lets it:
    lists were added, none changed; [attributes_list] was extended; a dict
    differs at most under [Distance], and only if it is in
    [attributes_list]. *)
Definition evolves (st st' : state) : Prop :=
  (∃ ext, lists st' = lists st ++ ext) ∧
  (∃ more, attributes_list st' = attributes_list st ++ more) ∧
  (∀ a items, dicts st !! a = Some items →
     ∃ items', dicts st' !! a = Some items' ∧
               (∀ key, key ≠ "Distance" → items' !! key = items !! key) ∧
               (a ∉ attributes_list st' → items' = items)).

(** The value stored under [Fire_Year] is a number outside the bound
    [1963, 2023]: the test on the year is false, without error. *)
Definition year_outside (wf_year : attr_value) : Prop :=
  match wf_year with
  | AInt y => (y < 1963 ∨ 2023 < y)%Z
  | AFloat y => ((1963 <=? y)%float && (y <=? 2023)%float) = false
  | ABool _ => True
  | ANone | AStr _ => False
  end.

(** The feature with only [rings[0]] kept in its geometry. *)
Definition first_ring_only (f : feature) : feature :=
  match geometry f with
  | Some (Geometry (Some (ring0 :: _))) =>
      Feature (attributes f) (Some (Geometry (Some [ring0])))
  | _ => f
  end.

(** ** Order facts on binary64 values *)

Module FloatOrder.

Ltac cmp_cases :=
  repeat match goal with
    | Hc : context [ (?x ?= ?y)%Z ] |- _ =>
        destruct (Z.compare_spec x y); simpl in Hc
    | |- context [ (?x ?= ?y)%Z ] =>
        destruct (Z.compare_spec x y); simpl
    | Hc : context [ PosDef.Pos.compare_cont Eq ?x ?y ] |- _ =>
        change (PosDef.Pos.compare_cont Eq x y) with (Pos.compare x y) in Hc;
        destruct (Pos.compare_spec x y); simpl in Hc
    | |- context [ PosDef.Pos.compare_cont Eq ?x ?y ] =>
        change (PosDef.Pos.compare_cont Eq x y) with (Pos.compare x y);
        destruct (Pos.compare_spec x y); simpl
    end.

(** Case analysis on the shape of the operands, then on the comparisons
    of exponents and mantissas. *)
Ltac sf_order :=
  unfold SFltb, SFleb, SFeqb; intros;
  repeat match goal with
    | f : spec_float |- _ => destruct f
    | b : bool |- _ => destruct b
    end;
  simpl in *; try congruence;
  cmp_cases; subst; try congruence; try lia.

Lemma SFltb_irrefl a : SFltb a a = false.
Proof. revert a. sf_order. Qed.

Lemma SFleb_ltb_trans a b c :
  SFleb a b = true → SFltb b c = true → SFltb a c = true.
Proof. revert a b c. sf_order. Qed.

Lemma SFltb_leb a b : SFltb a b = true → SFleb a b = true.
Proof. revert a b. sf_order. Qed.

Lemma SFeqb_leb a b : SFeqb a b = true → SFleb a b = true.
Proof. revert a b. sf_order. Qed.

Lemma SFleb_total a b :
  SFeqb a a = true → SFeqb b b = true → SFltb b a = false → SFleb a b = true.
Proof. revert a b. sf_order. Qed.

Lemma ltb_irrefl x : (x <? x)%float = false.
Proof. rewrite FloatAxioms.ltb_spec. apply SFltb_irrefl. Qed.

Lemma leb_ltb_trans x y z :
  (x <=? y)%float = true → (y <? z)%float = true → (x <? z)%float = true.
Proof. rewrite FloatAxioms.leb_spec, !FloatAxioms.ltb_spec. apply SFleb_ltb_trans. Qed.

Lemma ltb_leb x y : (x <? y)%float = true → (x <=? y)%float = true.
Proof. rewrite FloatAxioms.leb_spec, FloatAxioms.ltb_spec. apply SFltb_leb. Qed.

Lemma eqb_leb x y : (x =? y)%float = true → (x <=? y)%float = true.
Proof. rewrite FloatAxioms.leb_spec, FloatAxioms.eqb_spec. apply SFeqb_leb. Qed.

(** Among numbers the order is total: what is not above is below or equal. *)
Lemma not_ltb_leb x y :
  is_nan x = false → is_nan y = false →
  (y <? x)%float = false → (x <=? y)%float = true.
Proof.
  unfold is_nan. rewrite !negb_false_iff, !FloatAxioms.eqb_spec, FloatAxioms.ltb_spec, FloatAxioms.leb_spec.
  apply SFleb_total.
Qed.

Lemma SFleb_trans a b c :
  SFleb a b = true → SFleb b c = true → SFleb a c = true.
Proof. revert a b c. sf_order. Qed.

Lemma SFleb_antisym a b :
  SFleb a b = true → SFleb b a = true → SFeqb a b = true.
Proof. revert a b. sf_order. Qed.

Lemma SFltb_number a b : SFltb a b = true → SFeqb a a = true.
Proof. revert a b. sf_order. Qed.

Lemma SFnan_incomparable a b :
  SFeqb a a = false → SFltb b a = false ∧ SFleb a b = false.
Proof. revert a b. sf_order. Qed.

Lemma leb_trans x y z :
  (x <=? y)%float = true → (y <=? z)%float = true → (x <=? z)%float = true.
Proof. rewrite !FloatAxioms.leb_spec. apply SFleb_trans. Qed.

Lemma leb_antisym x y :
  (x <=? y)%float = true → (y <=? x)%float = true → (x =? y)%float = true.
Proof. rewrite !FloatAxioms.leb_spec, FloatAxioms.eqb_spec. apply SFleb_antisym. Qed.

(** What is below something is a number. *)
Lemma ltb_number x y : (x <? y)%float = true → is_nan x = false.
Proof.
  unfold is_nan. rewrite negb_false_iff, FloatAxioms.ltb_spec, FloatAxioms.eqb_spec.
  apply SFltb_number.
Qed.

(** Nothing is below a NaN, and a NaN is at most nothing. *)
Lemma nan_incomparable x y :
  is_nan x = true → (y <? x)%float = false ∧ (x <=? y)%float = false.
Proof.
  unfold is_nan.
  rewrite negb_true_iff, FloatAxioms.ltb_spec, FloatAxioms.leb_spec, FloatAxioms.eqb_spec.
  apply SFnan_incomparable.
Qed.

End FloatOrder.

(** ** Reprojection *)

Section Reprojection.
Context `{Pyproj}.

Lemma set_lists_id st : set_lists (lists st) st = st.
Proof. by destruct st. Qed.

(** A loop whose body appends the image of its item to the list [l]
    appends the images of all items, in order. *)
Lemma for_in_append (body : () → coord → M ()) (l : list_ref) :
  (∀ c st pre, lists st !! l = Some pre →
     body () c st = (Returned (), set_lists (<[l := pre ++ [reproject c]]> (lists st)) st)) →
  ∀ coords st pre, lists st !! l = Some pre →
    for_in coords body () st
    = (Returned (), set_lists (<[l := pre ++ (reproject <$> coords)]> (lists st)) st).
Proof.
  intros Hbody. induction coords as [|c coords IH]; intros st pre Hl; simpl.
  - rewrite app_nil_r, list_insert_id by done. by rewrite set_lists_id.
  - unfold mbind, M_bind. rewrite (Hbody c st pre Hl).
    rewrite (IH _ (pre ++ [reproject c])).
    + simpl. rewrite list_insert_insert_eq, <- app_assoc. done.
    + simpl. apply list_lookup_insert_eq. by eapply lookup_lt_Some.
Qed.

Lemma list_append_eq l x st pre :
  lists st !! l = Some pre →
  list_append l x st = (Returned (), set_lists (<[l := pre ++ [x]]> (lists st)) st).
Proof. intros Hl. unfold list_append. by rewrite Hl. Qed.

(** What a call does, whatever the reference: it allocates one list,
    fills it from the items found under [ring_data], and touches nothing
    else. *)
Lemma convert_ring_effect ring_data st :
  match (lists st ++ [[]]) !! ring_data with
  | Some r =>
      convert_ring_to_epsg4326 ring_data st
      = (Returned (length (lists st)), set_lists (lists st ++ [reproject <$> r]) st)
  | None =>
      convert_ring_to_epsg4326 ring_data st
      = (Raised invalid_reference, set_lists (lists st ++ [[]]) st)
  end.
Proof.
  unfold convert_ring_to_epsg4326, mbind, M_bind, list_new, list_items. simpl.
  destruct ((lists st ++ [[]]) !! ring_data) as [r|] eqn:Hr; [|done].
  erewrite (for_in_append _ (length (lists st))) with (pre := []).
  - simpl. rewrite insert_app_r_alt, Nat.sub_diag by done. done.
  - intros c st' pre Hpre. unfold reproject.
    destruct (Transformer_from_crs _ _ _ _) as [lat lon]. by apply list_append_eq.
  - simpl. by apply list_lookup_middle.
Qed.

Lemma convert_ring_returns ring_data r st :
  lists st !! ring_data = Some r →
  convert_ring_to_epsg4326 ring_data st
  = (Returned (length (lists st)), set_lists (lists st ++ [reproject <$> r]) st).
Proof.
  intros Hr. pose proof (convert_ring_effect ring_data st) as Heff.
  by rewrite (lookup_app_l_Some _ _ _ _ Hr) in Heff.
Qed.

(** Whatever the outcome, the store of lists grows by exactly one list. *)
Lemma convert_ring_frame ring_data st o st' :
  convert_ring_to_epsg4326 ring_data st = (o, st') →
  ∃ new, st' = set_lists (lists st ++ [new]) st.
Proof.
  intros Hrun. pose proof (convert_ring_effect ring_data st) as Heff.
  destruct (_ !! ring_data); rewrite Heff in Hrun; simplify_eq; eauto.
Qed.

End Reprojection.

(** C7: [convert_ring_to_epsg4326] does not write to its input: it returns a
    list that did not exist before the call, holding the reprojection of
    each input pair, in the same order and of the same length; the input
    list, like every other object, is as it was. *)
Theorem convert_ring_builds_new_list `{Pyproj} ring_data r st :
  lists st !! ring_data = Some r →
  ∃ converted_ring st',
    convert_ring_to_epsg4326 ring_data st = (Returned converted_ring, st') ∧
    lists st !! converted_ring = None ∧
    lists st' !! converted_ring = Some (reproject <$> r) ∧
    length (reproject <$> r) = length r ∧
    (∀ i c, r !! i = Some c → (reproject <$> r) !! i = Some (reproject c)) ∧
    lists st' !! ring_data = Some r ∧
    (∀ l items, lists st !! l = Some items → lists st' !! l = Some items) ∧
    dicts st' = dicts st ∧ attributes_list st' = attributes_list st ∧ stdout st' = stdout st.
Proof.
  intros Hr. eexists _, _. split; [by apply convert_ring_returns|]. simpl.
  split_and!; try done.
  - by apply lookup_ge_None.
  - by apply list_lookup_middle.
  - apply length_fmap.
  - intros i c Hi. by rewrite list_lookup_fmap, Hi.
  - by apply lookup_app_l_Some.
  - intros l items Hl. by apply lookup_app_l_Some.
Qed.

Lemma convert_ring_builds_new_list_witness :
  lists sample_state !! 0 = Some sample_ring ∧
  ∃ converted_ring st',
    @convert_ring_to_epsg4326 flat_pyproj 0 sample_state = (Returned converted_ring, st') ∧
    lists sample_state !! converted_ring = None ∧
    lists st' !! converted_ring = Some (@reproject flat_pyproj <$> sample_ring) ∧
    length (@reproject flat_pyproj <$> sample_ring) = length sample_ring ∧
    (∀ i c, sample_ring !! i = Some c →
            (@reproject flat_pyproj <$> sample_ring) !! i = Some (@reproject flat_pyproj c)) ∧
    lists st' !! 0 = Some sample_ring ∧
    (∀ l items, lists sample_state !! l = Some items → lists st' !! l = Some items) ∧
    dicts st' = dicts sample_state ∧
    attributes_list st' = attributes_list sample_state ∧
    stdout st' = stdout sample_state.
Proof.
  split; [reflexivity|].
  apply (@convert_ring_builds_new_list flat_pyproj 0 sample_ring sample_state).
  reflexivity.
Defined.

(** The reprojected sample ring is a fourth list in the store. *)
Example sample_ring_converted :
  let run := @convert_ring_to_epsg4326 flat_pyproj 0 sample_state in
  run.1 = Returned 3 ∧
  lists run.2 = sample_lists ++ [[(31.80, -102.40); (31.90, -102.30)]%float].
Proof. vm_compute. done. Qed.

(** C10: reprojection is deterministic: two invocations on lists with the
    same coordinates, from whatever two states of the interpreter, return
    lists with identical coordinates. *)
Theorem convert_ring_deterministic `{Pyproj} ring_data1 ring_data2 r st1 st2 :
  lists st1 !! ring_data1 = Some r →
  lists st2 !! ring_data2 = Some r →
  ∃ converted1 st1' converted2 st2' out,
    convert_ring_to_epsg4326 ring_data1 st1 = (Returned converted1, st1') ∧
    convert_ring_to_epsg4326 ring_data2 st2 = (Returned converted2, st2') ∧
    lists st1' !! converted1 = Some out ∧
    lists st2' !! converted2 = Some out.
Proof.
  intros Hr1 Hr2. eexists _, _, _, _, (reproject <$> r).
  split; [by apply convert_ring_returns|].
  split; [by apply convert_ring_returns|].
  simpl. split; by apply list_lookup_middle.
Qed.

Lemma convert_ring_deterministic_witness :
  let other_state := State [[]; sample_ring] sample_dicts [0] ["An error occurred : 'rings'"] in
  lists sample_state !! 0 = Some sample_ring ∧
  lists other_state !! 1 = Some sample_ring ∧
  ∃ converted1 st1' converted2 st2' out,
    @convert_ring_to_epsg4326 flat_pyproj 0 sample_state = (Returned converted1, st1') ∧
    @convert_ring_to_epsg4326 flat_pyproj 1 other_state = (Returned converted2, st2') ∧
    lists st1' !! converted1 = Some out ∧
    lists st2' !! converted2 = Some out.
Proof.
  split; [reflexivity|]. split; [reflexivity|].
  apply (@convert_ring_deterministic flat_pyproj 0 1 sample_ring
           sample_state
           (State [[]; sample_ring] sample_dicts [0] ["An error occurred : 'rings'"])).
  - reflexivity.
  - reflexivity.
Defined.

(** ** Nearest perimeter point *)

Section NearestPoint.
Context `{Pyproj}.
Variable place : coord.

Local Abbreviation dist := (distance_in_miles place).

(** The body of the scan, as it stands in the function. *)
Local Abbreviation scan_body :=
  (λ (closest_point : list item) (point : coord),
    let distance_in_miles := distance_in_miles place point in
    match closest_point with
    | [] => mret ([] ++ [IFloat distance_in_miles] ++ [IPoint point])
    | c :: _ =>
        closer ← item_gt c distance_in_miles;
        if (closer : bool)
        then mret ([] ++ [IFloat distance_in_miles] ++ [IPoint point])
        else mret closest_point
    end).

(** The function, with the distance computed in its loop body read as
    [distance_in_miles]. *)
Lemma shortest_distance_scan ring_data :
  shortest_distance_from_place_to_fire_perimeter place ring_data
  = (ring ← convert_ring_to_epsg4326 ring_data;
     points ← list_items ring;
     for_in points scan_body []).
Proof. reflexivity. Qed.

(** The scan only reads. *)
Lemma scan_state points : ∀ acc st o st',
  for_in points scan_body acc st = (o, st') → st' = st.
Proof.
  induction points as [|x points IH]; intros acc st o st' Hrun; simpl in Hrun.
  { by inversion Hrun. }
  unfold mbind, M_bind in Hrun. simpl in Hrun.
  destruct acc as [|[c|c] acc]; simpl in Hrun.
  - by apply IH in Hrun.
  - unfold mbind, M_bind in Hrun. simpl in Hrun.
    destruct (dist x <? c)%float; by apply IH in Hrun.
  - by inversion Hrun.
Qed.

Lemma closest_so_far_first x : closest_so_far place [x] (dist x) x.
Proof.
  split_and!; [done| |].
  - exists 0. split; [done|]. intros; lia.
  - intros q ->%list_elem_of_singleton. apply FloatOrder.ltb_irrefl.
Qed.

Lemma closest_so_far_keep seen d p x :
  closest_so_far place seen d p → (dist x <? d)%float = false →
  closest_so_far place (seen ++ [x]) d p.
Proof.
  intros (Hd & (i & Hi & Hbefore) & Hmin) Hx. split_and!; [done| |].
  - exists i. split; [by apply lookup_app_l_Some|].
    intros j q Hj Hq. apply (Hbefore j q Hj).
    rewrite lookup_app_l in Hq; [done|]. apply lookup_lt_Some in Hi. lia.
  - intros q [Hq| ->%list_elem_of_singleton]%elem_of_app; auto.
Qed.

Lemma closest_so_far_replace seen d p x :
  closest_so_far place seen d p → (dist x <? d)%float = true →
  closest_so_far place (seen ++ [x]) (dist x) x.
Proof.
  intros (Hd & _ & Hmin) Hx.
  assert (∀ q, q ∈ seen → (dist q <=? dist x)%float = false) as Hseen.
  { intros q Hq. destruct (dist q <=? dist x)%float eqn:Hle; [|done].
    rewrite <- (Hmin q Hq). symmetry. by eapply FloatOrder.leb_ltb_trans. }
  split_and!; [done| |].
  - exists (length seen). split; [by apply list_lookup_middle|].
    intros j q Hj Hq. apply Hseen. rewrite lookup_app_l in Hq by done.
    by eapply list_elem_of_lookup_2.
  - intros q [Hq| ->%list_elem_of_singleton]%elem_of_app.
    + destruct (dist q <? dist x)%float eqn:Hlt; [|done].
      apply FloatOrder.ltb_leb in Hlt. by rewrite Hseen in Hlt.
    + apply FloatOrder.ltb_irrefl.
Qed.

(** The scan, started on a closest point of the vertices seen, ends on a
    closest point of all vertices. *)
Lemma scan_closest points : ∀ seen d p st,
  closest_so_far place seen d p →
  ∃ d' p',
    for_in points scan_body [IFloat d; IPoint p] st = (Returned [IFloat d'; IPoint p'], st) ∧
    closest_so_far place (seen ++ points) d' p'.
Proof.
  induction points as [|x points IH]; intros seen d p st Hinv; simpl.
  { exists d, p. by rewrite app_nil_r. }
  unfold mbind, M_bind. simpl. unfold mbind, M_bind. simpl.
  destruct (dist x <? d)%float eqn:Hx; simpl.
  - destruct (IH (seen ++ [x]) (dist x) x st) as (d' & p' & Hrun & Hinv').
    { by eapply closest_so_far_replace. }
    exists d', p'. by rewrite <- app_assoc in Hinv'.
  - destruct (IH (seen ++ [x]) d p st) as (d' & p' & Hrun & Hinv').
    { by eapply closest_so_far_keep. }
    exists d', p'. by rewrite <- app_assoc in Hinv'.
Qed.

(** On a ring with a vertex the function returns a distance and a point,
    the closest vertex of the reprojected ring and the first at that
    distance; the only effect is the list the reprojection built. *)
Lemma shortest_distance_returns ring_data r st :
  lists st !! ring_data = Some r → r ≠ [] →
  ∃ d p,
    shortest_distance_from_place_to_fire_perimeter place ring_data st
    = (Returned [IFloat d; IPoint p], set_lists (lists st ++ [reproject <$> r]) st) ∧
    closest_so_far place (reproject <$> r) d p.
Proof.
  intros Hr Hne. destruct r as [|c r]; [done|].
  rewrite shortest_distance_scan. unfold mbind, M_bind.
  rewrite (convert_ring_returns _ _ _ Hr). unfold list_items. simpl.
  rewrite list_lookup_middle by done. simpl. unfold mbind, M_bind. simpl.
  destruct (scan_closest (reproject <$> r) [reproject c] (dist (reproject c)) (reproject c)
              (set_lists (lists st ++ [reproject c :: (reproject <$> r)]) st))
    as (d & p & Hrun & Hinv); [apply closest_so_far_first|].
  exists d, p. split; [exact Hrun|exact Hinv].
Qed.

(** On a ring without vertex the function returns the empty list. *)
Lemma shortest_distance_empty ring_data st :
  lists st !! ring_data = Some [] →
  shortest_distance_from_place_to_fire_perimeter place ring_data st
  = (Returned [], set_lists (lists st ++ [[]]) st).
Proof.
  intros Hr. rewrite shortest_distance_scan. unfold mbind, M_bind.
  rewrite (convert_ring_returns _ _ _ Hr). unfold list_items. simpl.
  by rewrite list_lookup_middle.
Qed.

(** Whatever the outcome, the only effect is one more list in the store. *)
Lemma shortest_distance_frame ring_data st o st' :
  shortest_distance_from_place_to_fire_perimeter place ring_data st = (o, st') →
  ∃ new, st' = set_lists (lists st ++ [new]) st.
Proof.
  rewrite shortest_distance_scan. unfold mbind, M_bind.
  destruct (convert_ring_to_epsg4326 ring_data st) as [[ring|e] st1] eqn:Hconv;
    apply convert_ring_frame in Hconv as [new ->]; [|intros; simplify_eq; eauto].
  unfold list_items. simpl. destruct (_ !! ring); [|intros; simplify_eq; eauto].
  intros ->%scan_state. eauto.
Qed.

(** The function is the scan of the reprojected ring, run in the state
    that holds the list built by the reprojection. *)
Lemma shortest_distance_unfold ring_data r st :
  lists st !! ring_data = Some r →
  shortest_distance_from_place_to_fire_perimeter place ring_data st
  = for_in (reproject <$> r) scan_body [] (set_lists (lists st ++ [reproject <$> r]) st).
Proof.
  intros Hr. rewrite shortest_distance_scan. unfold mbind, M_bind.
  rewrite (convert_ring_returns _ _ _ Hr). unfold list_items. simpl.
  by rewrite list_lookup_middle.
Qed.

(** Started on a point at distance [d], the scan ends on a distance that
    is a number exactly when [d] is one; on a NaN it keeps its point. *)
Lemma scan_nan points : ∀ d p st,
  ∃ d' p',
    for_in points scan_body [IFloat d; IPoint p] st = (Returned [IFloat d'; IPoint p'], st) ∧
    is_nan d' = is_nan d ∧
    (is_nan d = true → p' = p).
Proof.
  induction points as [|x points IH]; intros d p st; simpl.
  { by exists d, p. }
  unfold mbind, M_bind. simpl. unfold mbind, M_bind. simpl.
  destruct (dist x <? d)%float eqn:Hx; simpl; [|apply IH].
  assert (is_nan d = false) as Hd.
  { destruct (is_nan d) eqn:Hnan; [|done].
    apply (FloatOrder.nan_incomparable d (dist x)) in Hnan as [Hlt _]. congruence. }
  destruct (IH (dist x) x st) as (d' & p' & Hrun & Hnan' & _).
  exists d', p'. split; [exact Hrun|]. rewrite Hd. split; [|done].
  rewrite Hnan'. by eapply FloatOrder.ltb_number.
Qed.

(** The run on a ring that starts with [c]. *)
Lemma shortest_distance_nan ring_data c r st :
  lists st !! ring_data = Some (c :: r) →
  ∃ d p,
    shortest_distance_from_place_to_fire_perimeter place ring_data st
    = (Returned [IFloat d; IPoint p], set_lists (lists st ++ [reproject <$> c :: r]) st) ∧
    is_nan d = is_nan (dist (reproject c)) ∧
    (is_nan (dist (reproject c)) = true → p = reproject c).
Proof.
  intros Hr. rewrite (shortest_distance_unfold _ _ _ Hr). simpl.
  unfold mbind, M_bind. simpl.
  destruct (scan_nan (reproject <$> r) (dist (reproject c)) (reproject c)
              (set_lists (lists st ++ [reproject c :: (reproject <$> r)]) st))
    as (d & p & Hrun & Hnan & Hp).
  by exists d, p.
Qed.

(** On a ring whose first vertex is at a distance that is a number, the
    distance returned is a number. *)
Lemma shortest_distance_number ring_data c r st :
  lists st !! ring_data = Some (c :: r) →
  is_nan (dist (reproject c)) = false →
  ∃ d p,
    shortest_distance_from_place_to_fire_perimeter place ring_data st
    = (Returned [IFloat d; IPoint p], set_lists (lists st ++ [reproject <$> c :: r]) st) ∧
    closest_so_far place (reproject <$> c :: r) d p ∧
    is_nan d = false.
Proof.
  intros Hr Hc.
  destruct (shortest_distance_returns ring_data (c :: r) st Hr) as (d & p & Hrun & Hinv);
    [done|].
  destruct (shortest_distance_nan ring_data c r st Hr) as (d' & p' & Hrun' & Hnan & _).
  rewrite Hrun in Hrun'. injection Hrun' as <- <-.
  exists d, p. split_and!; [done..|]. by rewrite Hnan.
Qed.

End NearestPoint.

(** C1 as stated fails on a ring with a vertex whose distance is a NaN.
    With such a vertex first, the function returns the NaN and that vertex,
    though another vertex is 5.38 miles away, and the NaN is not at most
    that distance; with such a vertex later, the distance returned is not
    at most the distance of that vertex. *)
Lemma nan_distance_is_no_minimum :
  (@shortest_distance_from_place_to_fire_perimeter bounded_pyproj
     CITY_LOCATION_West_Odessa_latlon 0 nan_state).1
  = Returned [IFloat nan; IPoint (infinity, infinity)] ∧
  @distance_in_miles bounded_pyproj CITY_LOCATION_West_Odessa_latlon
    <$> (@reproject bounded_pyproj <$> nan_first_ring)
  = [nan; 5.3798214600006942; 5.3798214600006942]%float ∧
  (nan <=? 5.3798214600006942)%float = false ∧
  (@shortest_distance_from_place_to_fire_perimeter bounded_pyproj
     CITY_LOCATION_West_Odessa_latlon 1 nan_state).1
  = Returned [IFloat 5.3798214600006942; IPoint (31.80, -102.40)%float] ∧
  @distance_in_miles bounded_pyproj CITY_LOCATION_West_Odessa_latlon
    <$> (@reproject bounded_pyproj <$> nan_later_ring)
  = [5.3798214600006942; nan]%float ∧
  (5.3798214600006942 <=? nan)%float = false.
Proof. vm_compute. done. Qed.

(** C1, amended: on a non-empty ring whose first vertex is at a distance
    that is a number, the function returns a distance [d] and a point [p]
    such that [p] is a vertex of the reprojected ring, [d] is the WGS84
    geodesic distance in miles from the place to [p], [d] is a number, and
    [d] is at most the distance of every vertex whose distance is a number:
    [d] is the minimum over the vertices when all are at number distances. *)
Theorem shortest_distance_is_minimum `{Pyproj} place ring_data c r st :
  lists st !! ring_data = Some (c :: r) →
  is_nan (distance_in_miles place (reproject c)) = false →
  ∃ d p st',
    shortest_distance_from_place_to_fire_perimeter place ring_data st
    = (Returned [IFloat d; IPoint p], st') ∧
    p ∈ reproject <$> c :: r ∧
    d = distance_in_miles place p ∧
    is_nan d = false ∧
    (∀ q, q ∈ reproject <$> c :: r →
          is_nan (distance_in_miles place q) = false →
          (d <=? distance_in_miles place q)%float = true).
Proof.
  intros Hr Hc.
  destruct (shortest_distance_number place ring_data c r st Hr Hc)
    as (d & p & Hrun & (Hd & (i & Hi & _) & Hmin) & Hnum).
  exists d, p. eexists. split_and!; [exact Hrun| |done..|].
  - by eapply list_elem_of_lookup_2.
  - intros q Hq Hqnum. apply FloatOrder.not_ltb_leb; auto.
Qed.

Lemma shortest_distance_is_minimum_witness :
  lists sample_state !! 0 = Some ((-102.40, 31.80)%float :: [(-102.30, 31.90)%float]) ∧
  is_nan (@distance_in_miles flat_pyproj CITY_LOCATION_West_Odessa_latlon
            (@reproject flat_pyproj (-102.40, 31.80)%float)) = false ∧
  ∃ d p st',
    @shortest_distance_from_place_to_fire_perimeter flat_pyproj
      CITY_LOCATION_West_Odessa_latlon 0 sample_state
    = (Returned [IFloat d; IPoint p], st') ∧
    p ∈ @reproject flat_pyproj <$> (-102.40, 31.80)%float :: [(-102.30, 31.90)%float] ∧
    d = @distance_in_miles flat_pyproj CITY_LOCATION_West_Odessa_latlon p ∧
    is_nan d = false ∧
    (∀ q, q ∈ @reproject flat_pyproj <$> (-102.40, 31.80)%float :: [(-102.30, 31.90)%float] →
          is_nan (@distance_in_miles flat_pyproj CITY_LOCATION_West_Odessa_latlon q) = false →
          (d <=? @distance_in_miles flat_pyproj CITY_LOCATION_West_Odessa_latlon q)%float
          = true).
Proof.
  split; [reflexivity|]. split; [vm_compute; reflexivity|].
  apply (@shortest_distance_is_minimum flat_pyproj CITY_LOCATION_West_Odessa_latlon 0
           (-102.40, 31.80)%float [(-102.30, 31.90)%float] sample_state).
  - reflexivity.
  - vm_compute. reflexivity.
Defined.

(** C5 as stated fails on a ring whose first vertex is at a distance that
    is a NaN: the second and the third vertex are both at the minimum
    distance, 5.38 miles, and the point returned is neither, but the first
    vertex with its NaN. *)
Lemma nan_first_vertex_hides_ties :
  @reproject bounded_pyproj <$> nan_first_ring
  = [(infinity, infinity); (31.80, -102.40); (31.8912, -102.40)]%float ∧
  @distance_in_miles bounded_pyproj CITY_LOCATION_West_Odessa_latlon
    <$> (@reproject bounded_pyproj <$> nan_first_ring)
  = [nan; 5.3798214600006942; 5.3798214600006942]%float ∧
  (5.3798214600006942 =? 5.3798214600006942)%float = true ∧
  (@shortest_distance_from_place_to_fire_perimeter bounded_pyproj
     CITY_LOCATION_West_Odessa_latlon 0 nan_state).1
  = Returned [IFloat nan; IPoint (infinity, infinity)].
Proof. vm_compute. done. Qed.

(** C5, amended: on a ring whose first vertex is at a distance that is a
    number, when several vertices are at the minimum distance the point
    returned is the one that comes first in the ring: the function returns
    the vertex at some position [i], its distance [d] is the minimum (at
    most the distance of every vertex at a number distance), and every
    vertex at a distance equal to [d] stands at position [i] or later. *)
Theorem shortest_distance_first_of_ties `{Pyproj} place ring_data c r st :
  lists st !! ring_data = Some (c :: r) →
  is_nan (distance_in_miles place (reproject c)) = false →
  ∃ d p i st',
    shortest_distance_from_place_to_fire_perimeter place ring_data st
    = (Returned [IFloat d; IPoint p], st') ∧
    (reproject <$> c :: r) !! i = Some p ∧
    d = distance_in_miles place p ∧
    (∀ q, q ∈ reproject <$> c :: r →
          is_nan (distance_in_miles place q) = false →
          (d <=? distance_in_miles place q)%float = true) ∧
    (∀ j q, (reproject <$> c :: r) !! j = Some q →
            (distance_in_miles place q =? d)%float = true → i ≤ j).
Proof.
  intros Hr Hc.
  destruct (shortest_distance_number place ring_data c r st Hr Hc)
    as (d & p & Hrun & (Hd & (i & Hi & Hbefore) & Hmin) & Hnum).
  exists d, p, i. eexists. split_and!; [exact Hrun|done..| |].
  - intros q Hq Hqnum. apply FloatOrder.not_ltb_leb; auto.
  - intros j q Hj Heq. destruct (decide (i ≤ j)) as [|Hlt]; [done|].
    apply FloatOrder.eqb_leb in Heq. rewrite (Hbefore j q) in Heq; [done|lia|done].
Qed.

Lemma shortest_distance_first_of_ties_witness :
  lists nan_state !! 2
  = Some ((-102.30, 31.90)%float :: [(-102.40, 31.80); (-102.40, 31.8912)]%float) ∧
  is_nan (@distance_in_miles bounded_pyproj CITY_LOCATION_West_Odessa_latlon
            (@reproject bounded_pyproj (-102.30, 31.90)%float)) = false ∧
  ∃ d p i st',
    @shortest_distance_from_place_to_fire_perimeter bounded_pyproj
      CITY_LOCATION_West_Odessa_latlon 2 nan_state
    = (Returned [IFloat d; IPoint p], st') ∧
    (@reproject bounded_pyproj <$> tied_ring) !! i = Some p ∧
    d = @distance_in_miles bounded_pyproj CITY_LOCATION_West_Odessa_latlon p ∧
    (∀ q, q ∈ @reproject bounded_pyproj <$> tied_ring →
          is_nan (@distance_in_miles bounded_pyproj CITY_LOCATION_West_Odessa_latlon q)
          = false →
          (d <=? @distance_in_miles bounded_pyproj CITY_LOCATION_West_Odessa_latlon q)%float
          = true) ∧
    (∀ j q, (@reproject bounded_pyproj <$> tied_ring) !! j = Some q →
            (@distance_in_miles bounded_pyproj CITY_LOCATION_West_Odessa_latlon q =? d)%float
            = true → i ≤ j).
Proof.
  split; [reflexivity|]. split; [vm_compute; reflexivity|].
  apply (@shortest_distance_first_of_ties bounded_pyproj CITY_LOCATION_West_Odessa_latlon 2
           (-102.30, 31.90)%float [(-102.40, 31.80); (-102.40, 31.8912)]%float nan_state).
  - reflexivity.
  - vm_compute. reflexivity.
Defined.

(** On the ring with two vertices tied at the minimum, the first of the
    two is returned. *)
Example tied_ring_returns_first_of_two :
  (@shortest_distance_from_place_to_fire_perimeter bounded_pyproj
     CITY_LOCATION_West_Odessa_latlon 2 nan_state).1
  = Returned [IFloat 5.3798214600006942; IPoint (31.80, -102.40)%float] ∧
  @distance_in_miles bounded_pyproj CITY_LOCATION_West_Odessa_latlon
    <$> (@reproject bounded_pyproj <$> tied_ring)
  = [8.414592539999747; 5.3798214600006942; 5.3798214600006942]%float.
Proof. vm_compute. done. Qed.

(** With every vertex at the same distance, the first vertex is returned. *)
Example tie_returns_first_vertex :
  (@shortest_distance_from_place_to_fire_perimeter (const_pyproj 1000)
     CITY_LOCATION_West_Odessa_latlon 0 sample_state).1
  = Returned [IFloat 0.62136999999999998; IPoint (31.80, -102.40)%float].
Proof. vm_compute. reflexivity. Qed.

(** The specification's example: of (31.80, -102.40) and (31.90, -102.30)
    the first is the nearer to the place under [flat_pyproj]. *)
Example two_point_ring_nearest :
  (@shortest_distance_from_place_to_fire_perimeter flat_pyproj
     CITY_LOCATION_West_Odessa_latlon 0 sample_state).1
  = Returned [IFloat 5.3798214600006942; IPoint (31.80, -102.40)%float].
Proof. vm_compute. reflexivity. Qed.

(** C3 as stated fails: on a ring without points the function raises
    nothing; it returns the empty list. *)
Lemma empty_ring_returns_empty_list :
  (∃ st', @shortest_distance_from_place_to_fire_perimeter flat_pyproj
            CITY_LOCATION_West_Odessa_latlon 1 sample_state = (Returned [], st')) ∧
  ¬ (∃ e st', @shortest_distance_from_place_to_fire_perimeter flat_pyproj
                CITY_LOCATION_West_Odessa_latlon 1 sample_state = (Raised e, st')).
Proof.
  split.
  - eexists. vm_compute. reflexivity.
  - intros (e & st' & Hrun). vm_compute in Hrun. discriminate Hrun.
Qed.

(** C3, amended: on a ring without points the function raises no error and
    returns the empty list, with neither a distance nor a point in it. *)
Theorem shortest_distance_of_empty_ring `{Pyproj} place ring_data st :
  lists st !! ring_data = Some [] →
  ∃ st', shortest_distance_from_place_to_fire_perimeter place ring_data st
         = (Returned [], st').
Proof. intros Hr. eexists. by apply shortest_distance_empty. Qed.

Lemma shortest_distance_of_empty_ring_witness :
  lists sample_state !! 1 = Some [] ∧
  ∃ st', @shortest_distance_from_place_to_fire_perimeter flat_pyproj
           CITY_LOCATION_West_Odessa_latlon 1 sample_state = (Returned [], st').
Proof.
  split; [reflexivity|].
  apply (@shortest_distance_of_empty_ring flat_pyproj
           CITY_LOCATION_West_Odessa_latlon 1 sample_state).
  reflexivity.
Defined.

(** ** The filter-and-export loop *)

Section Pipeline.
Context `{Pyproj}.

Lemma year_in_bounds_effect wf_year st o st' :
  year_in_bounds wf_year st = (o, st') →
  st' = st ∧ (o = Returned true → year_within (Some wf_year)).
Proof.
  destruct wf_year as [|b|y|y|s]; simpl; intros Hrun; inversion Hrun; subst;
    (split; [done|]); intros Ho; simplify_eq.
  - apply andb_true_iff in Ho as [?%Z.leb_le ?%Z.leb_le]. lia.
  - by apply andb_true_iff in Ho.
Qed.

Lemma year_within_in_bounds wf_year st :
  year_within (Some wf_year) → year_in_bounds wf_year st = (Returned true, st).
Proof.
  destruct wf_year as [|b|y|y|s]; simpl; try done.
  - intros [?%Z.leb_le ?%Z.leb_le]. unfold mret, M_ret.
    by rewrite andb_true_intro.
  - intros [-> ->]. done.
Qed.

(** A leaf of the case analysis where the block ends, by return or by
    exception, with at most a new list in the store. *)
Local Ltac block_ends :=
  let Hrun := fresh "Hrun" in
  intros Hrun; inversion Hrun; subst; simpl;
  split_and!;
  [ done
  | first [ by eexists | by (exists []; rewrite app_nil_r) ]
  | by left ].

(** What the [try] block does to the state: it may add a list to the
    store; besides, either it leaves the dicts and [attributes_list] as
    they are, or it returns having retained the record. *)
Lemma try_body_effect f st o st' :
  try_body f st = (o, st') →
  stdout st' = stdout st ∧
  (∃ ext, lists st' = lists st ++ ext) ∧
  ( (dicts st' = dicts st ∧ attributes_list st' = attributes_list st)
    ∨ (∃ a items d,
         o = Returned () ∧ attributes f = Some a ∧ dicts st !! a = Some items ∧
         year_within (items !! "Fire_Year") ∧ (d <=? 1250)%float = true ∧
         dicts st' = <[a := <["Distance" := AFloat d]> items]> (dicts st) ∧
         attributes_list st' = attributes_list st ++ [a]) ).
Proof.
  unfold try_body.
  destruct f as [[a|] geom]; simpl; [|block_ends].
  destruct geom as [[[[|ring_data more]|]]|]; simpl.
  all: unfold mbind, M_bind, mret, M_ret, raise, dict_getitem; simpl.
  all: destruct (dicts st !! a) as [items|] eqn:Ha; [|block_ends].
  all: destruct (items !! "Fire_Year") as [wf_year|] eqn:Hy; [|block_ends].
  all: destruct (year_in_bounds wf_year st) as [[[|]|e] st0] eqn:Hyear;
    apply year_in_bounds_effect in Hyear as [-> Hwithin]; try block_ends.
  specialize (Hwithin eq_refl).
  destruct (shortest_distance_from_place_to_fire_perimeter
              CITY_LOCATION_West_Odessa_latlon ring_data st)
    as [[distance|e] st1] eqn:Hsd;
    apply shortest_distance_frame in Hsd as [new ->]; [|block_ends].
  destruct distance as [|[d|p] rest]; simpl; [block_ends| |block_ends].
  destruct (d <=? 1250)%float eqn:Hd; [|block_ends].
  unfold dict_setitem. simpl. rewrite Ha. simpl.
  intros Hrun. inversion Hrun; subst; simpl.
  split_and!; [done|by eexists|]. right. exists a, items, d. by rewrite Hy.
Qed.

(** The block on a record in range whose distance has been computed: the
    record is retained exactly when the distance is at most 1250.00. *)
Lemma try_body_threshold f a items geom ring_data more d rest st st1 :
  attributes f = Some a →
  dicts st !! a = Some items →
  year_within (items !! "Fire_Year") →
  geometry f = Some geom →
  rings geom = Some (ring_data :: more) →
  shortest_distance_from_place_to_fire_perimeter
    CITY_LOCATION_West_Odessa_latlon ring_data st = (Returned (IFloat d :: rest), st1) →
  try_body f st
  = (Returned (), if (d <=? 1250.00)%float then retained a items d st1 else st1).
Proof.
  intros Hattrs Ha Hyear Hgeom Hrings Hsd.
  destruct (shortest_distance_frame _ _ _ _ _ Hsd) as [new Hst1].
  unfold try_body. rewrite Hattrs, Hgeom. simpl.
  unfold mbind, M_bind, mret, M_ret, dict_getitem. simpl. rewrite Ha.
  destruct (items !! "Fire_Year") as [wf_year|] eqn:Hy; [|done].
  rewrite (year_within_in_bounds _ _ Hyear), Hrings. simpl. rewrite Hsd. simpl.
  destruct (d <=? 1250)%float; [|done].
  unfold dict_setitem. subst st1. simpl. by rewrite Ha.
Qed.

Lemma loop_app pre post st : loop (pre ++ post) st = loop post (loop pre st).
Proof. apply foldl_app. Qed.

Lemma loop_cons f post st : loop (f :: post) st = loop post (loop_iteration st f).
Proof. done. Qed.

(** *** Rows of the table *)

Lemma rows_within_iteration st f :
  rows_within (DataFrame st) → rows_within (DataFrame (loop_iteration st f)).
Proof.
  unfold rows_within, DataFrame, loop_iteration. rewrite !Forall_fmap, !Forall_forall.
  intros Hrows.
  destruct (try_body f st) as [o st'] eqn:Hrun.
  apply try_body_effect in Hrun as (_ & _ & Hcases).
  assert (∀ a, a ∈ attributes_list st' →
            ∃ items, dicts st' !! a = Some items ∧
                     year_within (items !! "Fire_Year") ∧
                     distance_within (items !! "Distance")) as Hrows'.
  { destruct Hcases as [[-> ->]|(a0 & items0 & d & _ & _ & Ha0 & Hyear & Hd & -> & ->)];
      [done|].
    intros a Ha. destruct (decide (a = a0)) as [->|Hne].
    - exists (<["Distance" := AFloat d]> items0). split_and!.
      + apply list_lookup_insert_eq. by eapply lookup_lt_Some.
      + by rewrite lookup_insert_ne.
      + by rewrite lookup_insert_eq.
    - rewrite list_lookup_insert_ne by done. apply Hrows.
      apply elem_of_app in Ha as [Ha| ->%list_elem_of_singleton]; done. }
  destruct o; simpl; done.
Qed.

Lemma rows_within_loop features : ∀ st,
  rows_within (DataFrame st) → rows_within (DataFrame (loop features st)).
Proof.
  induction features as [|f features IH]; intros st Hrows; [done|].
  rewrite loop_cons. by apply IH, rows_within_iteration.
Qed.

(** *** What the loop may change *)

Lemma evolves_refl st : evolves st st.
Proof.
  split_and!; [exists []; by rewrite app_nil_r..|]. intros a items Ha. by exists items.
Qed.

Lemma evolves_trans st1 st2 st3 : evolves st1 st2 → evolves st2 st3 → evolves st1 st3.
Proof.
  intros ([ext1 Hl1] & [more1 Ha1] & Hd1) ([ext2 Hl2] & [more2 Ha2] & Hd2).
  split_and!.
  - exists (ext1 ++ ext2). by rewrite Hl2, Hl1, app_assoc.
  - exists (more1 ++ more2). by rewrite Ha2, Ha1, app_assoc.
  - intros a items Ha.
    destruct (Hd1 a items Ha) as (items' & Ha' & Hkeys' & Hsame').
    destruct (Hd2 a items' Ha') as (items'' & Ha'' & Hkeys'' & Hsame'').
    exists items''. split_and!; [done| |].
    + intros key Hkey. by rewrite Hkeys'', Hkeys'.
    + intros Hnotin. rewrite Hsame'' by done. apply Hsame'.
      rewrite Ha2 in Hnotin. by apply not_elem_of_app in Hnotin as [? _].
Qed.

Lemma evolves_iteration st f : evolves st (loop_iteration st f).
Proof.
  unfold loop_iteration. destruct (try_body f st) as [o st'] eqn:Hrun.
  apply try_body_effect in Hrun as (_ & Hlists & Hcases).
  assert (evolves st st') as Hev.
  { split; [done|].
    destruct Hcases as [[Hd Hl]|(a0 & items0 & d & _ & _ & Ha0 & _ & _ & Hd & Hl)].
    - split; [exists []; by rewrite app_nil_r|]. intros a items Ha.
      exists items. by rewrite Hd.
    - split; [by eexists|]. intros a items Ha. rewrite Hd, Hl.
      destruct (decide (a = a0)) as [->|Hne].
      + pose proof (eq_trans (eq_sym Ha) Ha0) as [= ->].
        exists (<["Distance" := AFloat d]> items0). split_and!.
        * apply list_lookup_insert_eq. by eapply lookup_lt_Some.
        * intros key Hkey. by rewrite lookup_insert_ne.
        * intros []. apply elem_of_app. right. by apply list_elem_of_singleton.
      + exists items. by rewrite list_lookup_insert_ne. }
  destruct o; [done|]. destruct Hev as (? & ? & ?). by split_and!.
Qed.

Lemma evolves_loop features : ∀ st, evolves st (loop features st).
Proof.
  induction features as [|f features IH]; intros st; [apply evolves_refl|].
  rewrite loop_cons. eapply evolves_trans; [apply evolves_iteration|apply IH].
Qed.

(** *** Additional rings *)

Lemma try_body_first_ring_only f : try_body (first_ring_only f) = try_body f.
Proof. by destruct f as [attrs [[[[|ring0 more]|]]|]]. Qed.

Lemma loop_first_ring_only features : ∀ st,
  loop (first_ring_only <$> features) st = loop features st.
Proof.
  induction features as [|f features IH]; intros st; [done|].
  rewrite fmap_cons, !loop_cons, <- IH.
  unfold loop_iteration. by rewrite try_body_first_ring_only.
Qed.

End Pipeline.


(** The sample run keeps the fire of 2000, twice, and nothing else; its
    row carries the distance computed for it. *)
Example sample_run_rows :
  let st := @filter_cell flat_pyproj sample_features sample_lists sample_dicts in
  attributes_list st = [0; 0] ∧
  (dicts st !! 0 ≫= (.!! "Distance")) = Some (AFloat 5.3798214600006942) ∧
  (dicts st !! 0 ≫= (.!! "Fire_Year")) = Some (AInt 2000).
Proof. vm_compute. done. Qed.

(** C4: when the processing of a record raises, the record is skipped: a
    message is printed, the table gets no row and keeps the rows it had,
    and the loop goes on with the records that follow. *)
Theorem failed_record_is_skipped `{Pyproj} pre f post st e st1 :
  try_body f (loop pre st) = (Raised e, st1) →
  let before := loop pre st in
  let after := loop_iteration before f in
  stdout after = stdout before ++ ["An error occurred : " +:+ exn_str e] ∧
  attributes_list after = attributes_list before ∧
  DataFrame after = DataFrame before ∧
  loop (pre ++ f :: post) st = loop post after.
Proof.
  intros Hrun before after.
  assert (after = print ("An error occurred : " +:+ exn_str e) st1) as Hafter.
  { unfold after, loop_iteration, before. by rewrite Hrun. }
  apply try_body_effect in Hrun as (Hout & _ & [[Hd Hl]|(? & ? & ? & ? & _)]); [|done].
  split_and!.
  - rewrite Hafter. simpl. by rewrite Hout.
  - by rewrite Hafter.
  - rewrite Hafter. unfold DataFrame. simpl. by rewrite Hd, Hl.
  - by rewrite loop_app, loop_cons.
Qed.

Lemma failed_record_is_skipped_witness :
  let pre := take 2 sample_features in
  let f := Feature (Some 2) (Some (Geometry None)) in
  let post := drop 3 sample_features in
  let before := @loop flat_pyproj pre sample_state in
  let after := @loop_iteration flat_pyproj before f in
  @try_body flat_pyproj f before = (Raised (KeyError "rings"), before) ∧
  stdout after = stdout before ++ ["An error occurred : 'rings'"] ∧
  attributes_list after = attributes_list before ∧
  @DataFrame after = @DataFrame before ∧
  @loop flat_pyproj (pre ++ f :: post) sample_state = @loop flat_pyproj post after.
Proof.
  assert (@try_body flat_pyproj (Feature (Some 2) (Some (Geometry None)))
            (@loop flat_pyproj (take 2 sample_features) sample_state)
          = (Raised (KeyError "rings"),
             @loop flat_pyproj (take 2 sample_features) sample_state)) as Hrun.
  { vm_compute. reflexivity. }
  split; [exact Hrun|].
  exact (@failed_record_is_skipped flat_pyproj (take 2 sample_features)
           (Feature (Some 2) (Some (Geometry None))) (drop 3 sample_features)
           sample_state (KeyError "rings") _ Hrun).
Defined.

(** The console of the sample run: the record without [rings] and the
    record whose ring is empty are reported, as in the notebook's output. *)
Example sample_run_console :
  stdout (@filter_cell flat_pyproj sample_features sample_lists sample_dicts)
  = ["An error occurred : 'rings'"; "An error occurred : list index out of range"].
Proof. vm_compute. reflexivity. Qed.

(** C6 as stated fails: the loop writes to the attribute dict of a loaded
    feature; the dict of the retained fire had no [Distance] when loaded
    and has one after the loop. *)
Lemma loaded_attributes_are_written :
  (sample_dicts !! 0 ≫= (.!! "Distance")) = None ∧
  (dicts (@filter_cell flat_pyproj sample_features sample_lists sample_dicts) !! 0
     ≫= (.!! "Distance")) = Some (AFloat 5.3798214600006942).
Proof. vm_compute. done. Qed.

(** C8: only [rings[0]] of a feature is used: dropping the additional
    rings of every feature changes nothing in the outcome of the cell,
    neither the rows, nor the console, nor the store. *)
Theorem additional_rings_are_ignored `{Pyproj} features loaded_lists loaded_dicts :
  filter_cell (first_ring_only <$> features) loaded_lists loaded_dicts
  = filter_cell features loaded_lists loaded_dicts.
Proof. unfold filter_cell. apply loop_first_ring_only. Qed.

(** C9: the threshold is 1250.00 and the comparison is inclusive: a record
    in range is retained exactly when its distance [d] satisfies
    [d <= 1250.00]; in particular it is retained when [d] is 1250.00. *)
Theorem threshold_is_inclusive `{Pyproj} f a items geom ring_data more d p st st1 :
  attributes f = Some a →
  dicts st !! a = Some items →
  year_within (items !! "Fire_Year") →
  geometry f = Some geom →
  rings geom = Some (ring_data :: more) →
  shortest_distance_from_place_to_fire_perimeter
    CITY_LOCATION_West_Odessa_latlon ring_data st = (Returned [IFloat d; IPoint p], st1) →
  try_body f st
  = (Returned (), if (d <=? 1250.00)%float then retained a items d st1 else st1) ∧
  (d = 1250.00%float → try_body f st = (Returned (), retained a items d st1)).
Proof.
  intros Hattrs Ha Hyear Hgeom Hrings Hsd.
  pose proof (try_body_threshold f a items geom ring_data more d _ st st1
                Hattrs Ha Hyear Hgeom Hrings Hsd) as Hrun.
  split; [exact Hrun|]. intros ->. exact Hrun.
Qed.

Lemma threshold_is_inclusive_witness :
  let f := Feature (Some 0) (Some (Geometry (Some [0]))) in
  let st1 := set_lists (sample_lists ++ [[(31.80, -102.40); (31.90, -102.30)]%float])
               sample_state in
  @shortest_distance_from_place_to_fire_perimeter (const_pyproj meters_of_1250_miles)
    CITY_LOCATION_West_Odessa_latlon 0 sample_state
  = (Returned [IFloat 1250.00; IPoint (31.80, -102.40)%float], st1) ∧
  @try_body (const_pyproj meters_of_1250_miles) f sample_state
  = (Returned (), retained 0 {[ "Fire_Year" := AInt 2000 ]} 1250.00 st1).
Proof.
  assert (@shortest_distance_from_place_to_fire_perimeter
            (const_pyproj meters_of_1250_miles)
            CITY_LOCATION_West_Odessa_latlon 0 sample_state
          = (Returned [IFloat 1250.00; IPoint (31.80, -102.40)%float],
             set_lists (sample_lists ++ [[(31.80, -102.40); (31.90, -102.30)]%float])
               sample_state)) as Hsd.
  { vm_compute. reflexivity. }
  assert (year_within (({[ "Fire_Year" := AInt 2000 ]} : gmap string attr_value)
                         !! "Fire_Year")) as Hyear.
  { rewrite lookup_singleton_eq. simpl. lia. }
  split; [exact Hsd|].
  apply (@threshold_is_inclusive (const_pyproj meters_of_1250_miles)
           (Feature (Some 0) (Some (Geometry (Some [0])))) 0
           {[ "Fire_Year" := AInt 2000 ]} (Geometry (Some [0])) 0 []
           1250.00%float (31.80, -102.40)%float sample_state _
           eq_refl eq_refl Hyear eq_refl eq_refl Hsd).
  reflexivity.
Defined.

(** Just above the threshold a record is dropped. *)
Example above_threshold_is_dropped :
  let f := Feature (Some 0) (Some (Geometry (Some [0]))) in
  attributes_list
    (@loop_iteration (const_pyproj (next_up meters_of_1250_miles)) sample_state f) = [] ∧
  attributes_list
    (@loop_iteration (const_pyproj meters_of_1250_miles) sample_state f) = [0].
Proof. vm_compute. done. Qed.

(** ** More on the nearest perimeter point *)

Section NearestPointFacts.
Context `{Pyproj}.
Variable place : coord.

Local Abbreviation dist := (distance_in_miles place).

Local Abbreviation scan_body :=
  (λ (closest_point : list item) (point : coord),
    let distance_in_miles := distance_in_miles place point in
    match closest_point with
    | [] => mret ([] ++ [IFloat distance_in_miles] ++ [IPoint point])
    | c :: _ =>
        closer ← item_gt c distance_in_miles;
        if (closer : bool)
        then mret ([] ++ [IFloat distance_in_miles] ++ [IPoint point])
        else mret closest_point
    end).

(** The outcome of the scan does not depend on the state. *)
Lemma scan_pure points : ∀ acc, ∃ o, ∀ st, for_in points scan_body acc st = (o, st).
Proof.
  induction points as [|x points IH]; intros acc; simpl.
  { by exists (Returned acc). }
  unfold mbind, M_bind. simpl.
  destruct acc as [|[c|c] acc]; simpl.
  - apply IH.
  - unfold mbind, M_bind. simpl. destruct (dist x <? c)%float; apply IH.
  - by eexists.
Qed.

Lemma for_in_app {A S : Type} (body : S → A → M S) xs : ∀ ys acc st,
  for_in (xs ++ ys) body acc st
  = match for_in xs body acc st with
    | (Returned acc', st') => for_in ys body acc' st'
    | (Raised e, st') => (Raised e, st')
    end.
Proof.
  induction xs as [|x xs IH]; intros ys acc st; simpl; [done|].
  unfold mbind, M_bind. destruct (body acc x st) as [[acc'|e] st']; [apply IH|done].
Qed.

Lemma distances_are_numbers_elem ring q :
  distances_are_numbers place ring = true → q ∈ ring → is_nan (dist q) = false.
Proof.
  unfold distances_are_numbers. rewrite forallb_forall.
  intros Hnum Hq%list_elem_of_In. by apply negb_true_iff, Hnum.
Qed.

Lemma closest_so_far_elem seen d p : closest_so_far place seen d p → p ∈ seen.
Proof. intros (_ & (i & Hi & _) & _). by eapply list_elem_of_lookup_2. Qed.

(** Among numbers, the closest vertex is at most as far as any vertex. *)
Lemma closest_so_far_le seen d p q :
  closest_so_far place seen d p →
  distances_are_numbers place seen = true →
  q ∈ seen → (d <=? dist q)%float = true.
Proof.
  intros Hinv Hnum Hq. pose proof (closest_so_far_elem _ _ _ Hinv) as Hp.
  destruct Hinv as (-> & _ & Hmin).
  apply FloatOrder.not_ltb_leb; eauto using distances_are_numbers_elem.
Qed.

(** The run on a ring with one more vertex [x] at the end, from the run
    on the ring: [x] replaces the closest point exactly when it is closer. *)
Lemma shortest_distance_snoc ring_data1 ring_data2 r x st1 st2 :
  lists st1 !! ring_data1 = Some r →
  r ≠ [] →
  lists st2 !! ring_data2 = Some (r ++ [x]) →
  ∃ d p st1' st2',
    closest_so_far place (reproject <$> r) d p ∧
    shortest_distance_from_place_to_fire_perimeter place ring_data1 st1
    = (Returned [IFloat d; IPoint p], st1') ∧
    shortest_distance_from_place_to_fire_perimeter place ring_data2 st2
    = (Returned (if (dist (reproject x) <? d)%float
                 then [IFloat (dist (reproject x)); IPoint (reproject x)]
                 else [IFloat d; IPoint p]), st2').
Proof.
  intros Hr1 Hne Hr2.
  destruct (shortest_distance_returns place _ _ _ Hr1 Hne) as (d & p & Hrun1 & Hinv).
  exists d, p. eexists _, _. split; [exact Hinv|]. split; [exact Hrun1|].
  rewrite (shortest_distance_unfold _ _ _ _ Hr1) in Hrun1.
  rewrite (shortest_distance_unfold _ _ _ _ Hr2), fmap_app, for_in_app.
  destruct (scan_pure (reproject <$> r) []) as [o Ho]. rewrite Ho in Hrun1 |- *.
  injection Hrun1 as ->. simpl. unfold mbind, M_bind. simpl.
  by destruct (dist (reproject x) <? d)%float.
Qed.

End NearestPointFacts.

(** X1: a NaN distance sticks to the first vertex only.  On a ring that
    starts with [c], the distance returned is a NaN exactly when the
    distance of [c] is one, and then the point returned is [c], whatever
    the other vertices. *)
Theorem nan_only_from_first_vertex `{Pyproj} place ring_data c r st :
  lists st !! ring_data = Some (c :: r) →
  ∃ d p st',
    shortest_distance_from_place_to_fire_perimeter place ring_data st
    = (Returned [IFloat d; IPoint p], st') ∧
    is_nan d = is_nan (distance_in_miles place (reproject c)) ∧
    (is_nan (distance_in_miles place (reproject c)) = true → p = reproject c).
Proof.
  intros Hr.
  destruct (shortest_distance_nan place ring_data c r st Hr) as (d & p & Hrun & Hnan & Hp).
  exists d, p. eexists. split; [exact Hrun|]. by split.
Qed.

Lemma nan_only_from_first_vertex_witness :
  lists sample_state !! 0 = Some ((-102.40, 31.80)%float :: [(-102.30, 31.90)%float]) ∧
  ∃ d p st',
    @shortest_distance_from_place_to_fire_perimeter (const_pyproj nan)
      CITY_LOCATION_West_Odessa_latlon 0 sample_state
    = (Returned [IFloat d; IPoint p], st') ∧
    is_nan d = is_nan (@distance_in_miles (const_pyproj nan)
                         CITY_LOCATION_West_Odessa_latlon
                         (@reproject (const_pyproj nan) (-102.40, 31.80)%float)) ∧
    (is_nan (@distance_in_miles (const_pyproj nan) CITY_LOCATION_West_Odessa_latlon
               (@reproject (const_pyproj nan) (-102.40, 31.80)%float)) = true →
     p = @reproject (const_pyproj nan) (-102.40, 31.80)%float).
Proof.
  split; [reflexivity|].
  apply (@nan_only_from_first_vertex (const_pyproj nan)
           CITY_LOCATION_West_Odessa_latlon 0 (-102.40, 31.80)%float
           [(-102.30, 31.90)%float] sample_state).
  reflexivity.
Defined.

(** X2: one more vertex at the end of a ring replaces the closest point
    exactly when it is strictly closer; otherwise distance and point are
    those of the ring without it. *)
Theorem one_more_vertex `{Pyproj} place ring_data1 ring_data2 r x st1 st2 :
  lists st1 !! ring_data1 = Some r →
  r ≠ [] →
  lists st2 !! ring_data2 = Some (r ++ [x]) →
  ∃ d p st1' st2',
    shortest_distance_from_place_to_fire_perimeter place ring_data1 st1
    = (Returned [IFloat d; IPoint p], st1') ∧
    shortest_distance_from_place_to_fire_perimeter place ring_data2 st2
    = (Returned (if (distance_in_miles place (reproject x) <? d)%float
                 then [IFloat (distance_in_miles place (reproject x)); IPoint (reproject x)]
                 else [IFloat d; IPoint p]), st2').
Proof.
  intros Hr1 Hne Hr2.
  destruct (shortest_distance_snoc place _ _ _ _ _ _ Hr1 Hne Hr2)
    as (d & p & st1' & st2' & _ & Hrun1 & Hrun2).
  by exists d, p, st1', st2'.
Qed.

Lemma one_more_vertex_witness :
  lists ring_state !! 0 = Some sample_ring ∧
  sample_ring ≠ [] ∧
  lists ring_state !! 1 = Some (sample_ring ++ [(-102.40, 31.80)%float]) ∧
  ∃ d p st1' st2',
    @shortest_distance_from_place_to_fire_perimeter flat_pyproj
      CITY_LOCATION_West_Odessa_latlon 0 ring_state
    = (Returned [IFloat d; IPoint p], st1') ∧
    @shortest_distance_from_place_to_fire_perimeter flat_pyproj
      CITY_LOCATION_West_Odessa_latlon 1 ring_state
    = (Returned
         (if (@distance_in_miles flat_pyproj CITY_LOCATION_West_Odessa_latlon
                (@reproject flat_pyproj (-102.40, 31.80)%float) <? d)%float
          then [IFloat (@distance_in_miles flat_pyproj CITY_LOCATION_West_Odessa_latlon
                          (@reproject flat_pyproj (-102.40, 31.80)%float));
                IPoint (@reproject flat_pyproj (-102.40, 31.80)%float)]
          else [IFloat d; IPoint p]), st2').
Proof.
  assert (sample_ring ≠ []) as Hne by discriminate.
  split; [reflexivity|]. split; [exact Hne|]. split; [reflexivity|].
  apply (@one_more_vertex flat_pyproj CITY_LOCATION_West_Odessa_latlon 0 1
           sample_ring (-102.40, 31.80)%float ring_state ring_state).
  - reflexivity.
  - exact Hne.
  - reflexivity.
Defined.

(** X3: repeating a vertex of the ring at its end, as a closed polygon ring
    repeats its first vertex, changes neither the distance nor the point
    returned. *)
Theorem repeated_vertex_changes_nothing `{Pyproj}
    place ring_data1 ring_data2 r i c st1 st2 :
  lists st1 !! ring_data1 = Some r →
  r !! i = Some c →
  lists st2 !! ring_data2 = Some (r ++ [c]) →
  ∃ d p st1' st2',
    shortest_distance_from_place_to_fire_perimeter place ring_data1 st1
    = (Returned [IFloat d; IPoint p], st1') ∧
    shortest_distance_from_place_to_fire_perimeter place ring_data2 st2
    = (Returned [IFloat d; IPoint p], st2').
Proof.
  intros Hr1 Hc Hr2.
  assert (r ≠ []) as Hne by (by destruct r).
  destruct (shortest_distance_snoc place _ _ _ _ _ _ Hr1 Hne Hr2)
    as (d & p & st1' & st2' & (_ & _ & Hmin) & Hrun1 & Hrun2).
  exists d, p, st1', st2'. split; [exact Hrun1|].
  rewrite Hmin in Hrun2; [exact Hrun2|].
  apply list_elem_of_fmap_2. by eapply list_elem_of_lookup_2.
Qed.

Lemma repeated_vertex_changes_nothing_witness :
  lists ring_state !! 0 = Some sample_ring ∧
  sample_ring !! 0 = Some (-102.40, 31.80)%float ∧
  lists ring_state !! 1 = Some (sample_ring ++ [(-102.40, 31.80)%float]) ∧
  ∃ d p st1' st2',
    @shortest_distance_from_place_to_fire_perimeter flat_pyproj
      CITY_LOCATION_West_Odessa_latlon 0 ring_state
    = (Returned [IFloat d; IPoint p], st1') ∧
    @shortest_distance_from_place_to_fire_perimeter flat_pyproj
      CITY_LOCATION_West_Odessa_latlon 1 ring_state
    = (Returned [IFloat d; IPoint p], st2').
Proof.
  split; [reflexivity|]. split; [reflexivity|]. split; [reflexivity|].
  apply (@repeated_vertex_changes_nothing flat_pyproj CITY_LOCATION_West_Odessa_latlon
           0 1 sample_ring 0 (-102.40, 31.80)%float ring_state ring_state).
  - reflexivity.
  - reflexivity.
  - reflexivity.
Defined.

(** X4: among numbers the distance returned does not depend on the order of
    the vertices: two rings with the same vertices, in whatever order, are
    at equal distances (the point returned may differ on ties). *)
Theorem distance_independent_of_order `{Pyproj}
    place ring_data1 ring_data2 r1 r2 st1 st2 :
  lists st1 !! ring_data1 = Some r1 →
  lists st2 !! ring_data2 = Some r2 →
  r1 ≡ₚ r2 →
  r1 ≠ [] →
  distances_are_numbers place (reproject <$> r1) = true →
  ∃ d1 p1 st1' d2 p2 st2',
    shortest_distance_from_place_to_fire_perimeter place ring_data1 st1
    = (Returned [IFloat d1; IPoint p1], st1') ∧
    shortest_distance_from_place_to_fire_perimeter place ring_data2 st2
    = (Returned [IFloat d2; IPoint p2], st2') ∧
    (d1 =? d2)%float = true.
Proof.
  intros Hr1 Hr2 Hperm Hne1 Hnum1.
  assert (r2 ≠ []) as Hne2.
  { intros ->. by apply Permutation_nil_r in Hperm. }
  assert (∀ q, q ∈ reproject <$> r1 ↔ q ∈ reproject <$> r2) as Hsame.
  { intros q. by rewrite Hperm. }
  assert (distances_are_numbers place (reproject <$> r2) = true) as Hnum2.
  { unfold distances_are_numbers. rewrite forallb_forall.
    intros q Hq%list_elem_of_In%Hsame.
    by rewrite (distances_are_numbers_elem place _ _ Hnum1 Hq). }
  destruct (shortest_distance_returns place _ _ _ Hr1 Hne1) as (d1 & p1 & Hrun1 & Hinv1).
  destruct (shortest_distance_returns place _ _ _ Hr2 Hne2) as (d2 & p2 & Hrun2 & Hinv2).
  exists d1, p1. eexists. exists d2, p2. eexists.
  split; [exact Hrun1|]. split; [exact Hrun2|].
  pose proof (closest_so_far_elem place _ _ _ Hinv1) as Hp1.
  pose proof (closest_so_far_elem place _ _ _ Hinv2) as Hp2.
  apply FloatOrder.leb_antisym.
  - destruct Hinv2 as [Hd2 _]. rewrite Hd2.
    eapply closest_so_far_le; [exact Hinv1|exact Hnum1|by apply Hsame].
  - destruct Hinv1 as [Hd1 _]. rewrite Hd1.
    eapply closest_so_far_le; [exact Hinv2|exact Hnum2|by apply Hsame].
Qed.

Lemma distance_independent_of_order_witness :
  lists ring_state !! 0 = Some sample_ring ∧
  lists ring_state !! 2 = Some reversed_ring ∧
  sample_ring ≡ₚ reversed_ring ∧
  sample_ring ≠ [] ∧
  @distances_are_numbers flat_pyproj CITY_LOCATION_West_Odessa_latlon
    (@reproject flat_pyproj <$> sample_ring) = true ∧
  ∃ d1 p1 st1' d2 p2 st2',
    @shortest_distance_from_place_to_fire_perimeter flat_pyproj
      CITY_LOCATION_West_Odessa_latlon 0 ring_state
    = (Returned [IFloat d1; IPoint p1], st1') ∧
    @shortest_distance_from_place_to_fire_perimeter flat_pyproj
      CITY_LOCATION_West_Odessa_latlon 2 ring_state
    = (Returned [IFloat d2; IPoint p2], st2') ∧
    (d1 =? d2)%float = true.
Proof.
  assert (sample_ring ≡ₚ reversed_ring) as Hperm by apply perm_swap.
  assert (sample_ring ≠ []) as Hne by discriminate.
  assert (@distances_are_numbers flat_pyproj CITY_LOCATION_West_Odessa_latlon
            (@reproject flat_pyproj <$> sample_ring) = true) as Hnum.
  { vm_compute. reflexivity. }
  split; [reflexivity|]. split; [reflexivity|]. split; [exact Hperm|].
  split; [exact Hne|]. split; [exact Hnum|].
  exact (@distance_independent_of_order flat_pyproj CITY_LOCATION_West_Odessa_latlon
           0 2 sample_ring reversed_ring ring_state ring_state
           eq_refl eq_refl Hperm Hne Hnum).
Defined.

(** X5: the distance function only reads: whatever its outcome, it leaves
    every list that existed, the dicts, [attributes_list] and the console
    as they were; its only trace is the list the reprojection built. *)
Theorem shortest_distance_reads_only `{Pyproj} place ring_data st :
  let st' := (shortest_distance_from_place_to_fire_perimeter place ring_data st).2 in
  (∀ l items, lists st !! l = Some items → lists st' !! l = Some items) ∧
  length (lists st') = S (length (lists st)) ∧
  dicts st' = dicts st ∧
  attributes_list st' = attributes_list st ∧
  stdout st' = stdout st.
Proof.
  intros st'.
  destruct (shortest_distance_from_place_to_fire_perimeter place ring_data st)
    as [o st1] eqn:Hrun.
  apply shortest_distance_frame in Hrun as [new Hst1].
  unfold st'. simpl. rewrite Hst1. simpl. split_and!; try done.
  - intros l items Hl. by apply lookup_app_l_Some.
  - rewrite length_app. simpl. lia.
Qed.

(** X6: two successive reprojections of the same list return two distinct
    new lists with the same coordinates; the second call leaves the result
    of the first, and the input, as they were. *)
Theorem successive_conversions_do_not_alias `{Pyproj} ring_data r st :
  lists st !! ring_data = Some r →
  ∃ converted1 st1 converted2 st2,
    convert_ring_to_epsg4326 ring_data st = (Returned converted1, st1) ∧
    convert_ring_to_epsg4326 ring_data st1 = (Returned converted2, st2) ∧
    converted1 ≠ converted2 ∧
    lists st2 !! converted1 = Some (reproject <$> r) ∧
    lists st2 !! converted2 = Some (reproject <$> r) ∧
    lists st2 !! ring_data = Some r.
Proof.
  intros Hr.
  pose proof (convert_ring_returns ring_data r st Hr) as Hrun1.
  assert (lists (set_lists (lists st ++ [reproject <$> r]) st) !! ring_data = Some r) as Hr1.
  { simpl. by apply lookup_app_l_Some. }
  pose proof (convert_ring_returns ring_data r _ Hr1) as Hrun2.
  eexists _, _, _, _. split; [exact Hrun1|]. split; [exact Hrun2|]. simpl.
  split_and!.
  - rewrite length_app. simpl. lia.
  - apply lookup_app_l_Some. by apply list_lookup_middle.
  - by apply list_lookup_middle.
  - by do 2 apply lookup_app_l_Some.
Qed.

Lemma successive_conversions_do_not_alias_witness :
  lists sample_state !! 0 = Some sample_ring ∧
  ∃ converted1 st1 converted2 st2,
    @convert_ring_to_epsg4326 flat_pyproj 0 sample_state = (Returned converted1, st1) ∧
    @convert_ring_to_epsg4326 flat_pyproj 0 st1 = (Returned converted2, st2) ∧
    converted1 ≠ converted2 ∧
    lists st2 !! converted1 = Some (@reproject flat_pyproj <$> sample_ring) ∧
    lists st2 !! converted2 = Some (@reproject flat_pyproj <$> sample_ring) ∧
    lists st2 !! 0 = Some sample_ring.
Proof.
  split; [reflexivity|].
  apply (@successive_conversions_do_not_alias flat_pyproj 0 sample_ring sample_state).
  reflexivity.
Defined.

(** ** More on the filter-and-export loop *)

Section PipelineFacts.
Context `{Pyproj}.

Lemma year_outside_in_bounds wf_year st :
  year_outside wf_year → year_in_bounds wf_year st = (Returned false, st).
Proof.
  destruct wf_year as [|b|y|y|s]; simpl; try done.
  - intros Hy. unfold mret, M_ret. f_equal. f_equal.
    apply andb_false_iff. rewrite !Z.leb_gt. lia.
  - by intros ->.
Qed.

(** The block up to the test on the year, for a record whose year is
    within the bound. *)
Lemma try_body_in_bounds f a items st :
  attributes f = Some a →
  dicts st !! a = Some items →
  year_within (items !! "Fire_Year") →
  try_body f st
  = (geom ← getitem "geometry" (geometry f);
     all_rings ← getitem "rings" (rings geom);
     ring_data ← getitem0 all_rings;
     distance ← shortest_distance_from_place_to_fire_perimeter
                  CITY_LOCATION_West_Odessa_latlon ring_data;
     distance0 ← getitem0 distance;
     match distance0 with
     | IFloat d =>
         if (d <=? 1250.00)%float then
           feature_attributes ← getitem "attributes" (attributes f);
           dict_setitem feature_attributes "Distance" (AFloat d);;
           attributes_list_append feature_attributes
         else mret ()
     | IPoint _ => raise (TypeError "'<=' not supported between instances of 'tuple' and 'float'")
     end) st.
Proof.
  intros Hattrs Ha Hyear. unfold try_body. rewrite Hattrs. simpl.
  unfold mbind at 1, M_bind at 1. simpl.
  unfold mbind at 1, M_bind at 1. unfold dict_getitem. rewrite Ha.
  destruct (items !! "Fire_Year") as [wf_year|] eqn:Hy; [|done].
  unfold mbind at 1, M_bind at 1. by rewrite (year_within_in_bounds _ _ Hyear).
Qed.

Lemma some_vertex_within_elem place ring :
  some_vertex_within place ring = true →
  ∃ q, q ∈ ring ∧ (distance_in_miles place q <=? 1250.00)%float = true.
Proof.
  unfold some_vertex_within. rewrite existsb_exists.
  intros (q & Hq%list_elem_of_In & Hle). eauto.
Qed.

(** A record within the bound of years whose first ring has a vertex
    within the threshold is retained, with the distance of the closest
    vertex of that ring. *)
Lemma try_body_retains f a items geom ring_data more r st :
  attributes f = Some a →
  dicts st !! a = Some items →
  year_within (items !! "Fire_Year") →
  geometry f = Some geom →
  rings geom = Some (ring_data :: more) →
  lists st !! ring_data = Some r →
  distances_are_numbers CITY_LOCATION_West_Odessa_latlon (reproject <$> r) = true →
  some_vertex_within CITY_LOCATION_West_Odessa_latlon (reproject <$> r) = true →
  ∃ d p,
    closest_so_far CITY_LOCATION_West_Odessa_latlon (reproject <$> r) d p ∧
    (d <=? 1250.00)%float = true ∧
    try_body f st
    = (Returned (), retained a items d (set_lists (lists st ++ [reproject <$> r]) st)).
Proof.
  intros Hattrs Ha Hyear Hgeom Hrings Hr Hnum Hwithin.
  apply some_vertex_within_elem in Hwithin as (q & Hq & Hle).
  assert (r ≠ []) as Hne by (intros ->; by apply not_elem_of_nil in Hq).
  destruct (shortest_distance_returns CITY_LOCATION_West_Odessa_latlon _ _ _ Hr Hne)
    as (d & p & Hrun & Hinv).
  assert ((d <=? 1250.00)%float = true) as Hd.
  { eapply FloatOrder.leb_trans; [|exact Hle]. by eapply closest_so_far_le. }
  exists d, p. split; [exact Hinv|]. split; [exact Hd|].
  rewrite (try_body_threshold f a items geom ring_data more d _ st _
             Hattrs Ha Hyear Hgeom Hrings Hrun).
  by rewrite Hd.
Qed.

(** What one iteration does to the table and to the console: nothing, or
    one row for the record, or one message. *)
Lemma loop_iteration_cases st f :
  (attributes_list (loop_iteration st f) = attributes_list st ∧
   stdout (loop_iteration st f) = stdout st) ∨
  (∃ a, attributes f = Some a ∧
        attributes_list (loop_iteration st f) = attributes_list st ++ [a] ∧
        stdout (loop_iteration st f) = stdout st) ∨
  (∃ e, attributes_list (loop_iteration st f) = attributes_list st ∧
        stdout (loop_iteration st f)
        = stdout st ++ ["An error occurred : " +:+ exn_str e]).
Proof.
  unfold loop_iteration. destruct (try_body f st) as [[[]|e] st'] eqn:Hrun;
    apply try_body_effect in Hrun
      as (Hout & _ & [[_ Hl]|(a & items & d & Ho & Ha & _ & _ & _ & _ & Hl)]).
  - by left.
  - right. left. by exists a.
  - right. right. exists e. simpl. by rewrite Hl, Hout.
  - done.
Qed.

Lemma loop_rows_and_console features : ∀ st,
  ∃ rows lines,
    attributes_list (loop features st) = attributes_list st ++ rows ∧
    stdout (loop features st) = stdout st ++ lines ∧
    rows `sublist_of` omap attributes features ∧
    length rows + length lines ≤ length features ∧
    Forall (λ line, ∃ e, line = "An error occurred : " +:+ exn_str e) lines.
Proof.
  induction features as [|f features IH]; intros st.
  { exists [], []. rewrite !app_nil_r. by split_and!. }
  rewrite loop_cons.
  destruct (IH (loop_iteration st f)) as (rows & lines & -> & -> & Hsub & Hlen & Hlines).
  destruct (loop_iteration_cases st f)
    as [[-> ->]|[(a & Ha & -> & ->)|(e & -> & ->)]]; simpl.
  - exists rows, lines. split_and!; try done; [|lia].
    destruct (attributes f); simpl; [by apply sublist_cons|done].
  - exists (a :: rows), lines. rewrite <- app_assoc. split_and!; try done; simpl; [|lia].
    rewrite Ha. simpl. by apply sublist_skip.
  - exists rows, (("An error occurred : " +:+ exn_str e) :: lines).
    rewrite <- app_assoc. split_and!; try done; simpl; [|lia|].
    + destruct (attributes f); simpl; [by apply sublist_cons|done].
    + apply Forall_cons. eauto.
Qed.

(** The loop creates no dict and removes none. *)
Lemma loop_dicts_length features : ∀ st,
  length (dicts (loop features st)) = length (dicts st).
Proof.
  induction features as [|f features IH]; intros st; [done|].
  rewrite loop_cons, IH. unfold loop_iteration.
  destruct (try_body f st) as [o st'] eqn:Hrun.
  apply try_body_effect in Hrun
    as (_ & _ & [[Hd _]|(a & items & d & _ & _ & _ & _ & _ & Hd & _)]).
  - destruct o; simpl; by rewrite Hd.
  - destruct o; simpl; rewrite Hd; apply length_insert.
Qed.

(** A qualifying record of the collection is retained by the cell. *)
Lemma filter_cell_retains
    features loaded_lists loaded_dicts i f a items geom ring_data more r :
  features !! i = Some f →
  attributes f = Some a →
  loaded_dicts !! a = Some items →
  year_within (items !! "Fire_Year") →
  geometry f = Some geom →
  rings geom = Some (ring_data :: more) →
  loaded_lists !! ring_data = Some r →
  distances_are_numbers CITY_LOCATION_West_Odessa_latlon (reproject <$> r) = true →
  some_vertex_within CITY_LOCATION_West_Odessa_latlon (reproject <$> r) = true →
  a ∈ attributes_list (filter_cell features loaded_lists loaded_dicts).
Proof.
  intros Hf Hattrs Ha Hyear Hgeom Hrings Hr Hnum Hwithin.
  unfold filter_cell. rewrite <- (take_drop_middle _ _ _ Hf), loop_app, loop_cons.
  set (st0 := State loaded_lists loaded_dicts [] []).
  destruct (evolves_loop (take i features) st0) as ([ext Hlists] & _ & Hdicts).
  destruct (Hdicts a items Ha) as (items' & Ha' & Hkeys & _).
  assert (lists (loop (take i features) st0) !! ring_data = Some r) as Hr'.
  { rewrite Hlists. by apply lookup_app_l_Some. }
  assert (year_within (items' !! "Fire_Year")) as Hyear' by (by rewrite Hkeys).
  destruct (try_body_retains f a items' geom ring_data more r _
              Hattrs Ha' Hyear' Hgeom Hrings Hr' Hnum Hwithin) as (d & p & _ & _ & Hrun).
  assert (a ∈ attributes_list (loop_iteration (loop (take i features) st0) f)) as Hin.
  { unfold loop_iteration. rewrite Hrun. simpl.
    apply elem_of_app. right. by apply list_elem_of_singleton. }
  destruct (evolves_loop (drop (S i) features)
              (loop_iteration (loop (take i features) st0) f)) as (_ & [rows ->] & _).
  apply elem_of_app. by left.
Qed.

(** Every entry of [attributes_list] refers to a dict that was loaded, and
    that now holds a number under [Distance], its other keys as loaded. *)
Lemma filter_cell_rows_written features loaded_lists loaded_dicts a :
  a ∈ attributes_list (filter_cell features loaded_lists loaded_dicts) →
  ∃ items items' d,
    loaded_dicts !! a = Some items ∧
    dicts (filter_cell features loaded_lists loaded_dicts) !! a = Some items' ∧
    items' !! "Distance" = Some (AFloat d) ∧
    (d <=? 1250.00)%float = true ∧
    (∀ key, key ≠ "Distance" → items' !! key = items !! key).
Proof.
  intros Ha. unfold filter_cell in *.
  set (st0 := State loaded_lists loaded_dicts [] []) in *.
  assert (rows_within (DataFrame (loop features st0))) as Hrows.
  { apply rows_within_loop. apply Forall_nil_2. }
  unfold rows_within, DataFrame in Hrows. rewrite Forall_fmap, Forall_forall in Hrows.
  destruct (Hrows a Ha) as (items' & Ha' & _ & Hdist). simpl in Ha'.
  destruct (items' !! "Distance") as [[| | |d|]|] eqn:Hd; try done. simpl in Hdist.
  assert (is_Some (loaded_dicts !! a)) as [items Hitems].
  { apply lookup_lt_is_Some. apply lookup_lt_Some in Ha'.
    by rewrite (loop_dicts_length features st0) in Ha'. }
  destruct (evolves_loop features st0) as (_ & _ & Hdicts).
  destruct (Hdicts a items Hitems) as (items'' & Ha'' & Hkeys & _).
  pose proof (eq_trans (eq_sym Ha') Ha'') as [= <-].
  by exists items, items', d.
Qed.

End PipelineFacts.

(** C6, amended: the loop changes no loaded ring and no attribute other
    than [Distance], and writes to no dict but those of the records it
    retains; for each record it retains it sets [Distance], in place, in
    the loaded dict of the feature, which is the row of the table; and it
    does retain the records that qualify. *)
Theorem loaded_features_change_only_by_distance `{Pyproj}
    features loaded_lists loaded_dicts :
  let st' := filter_cell features loaded_lists loaded_dicts in
  (∀ l ring, loaded_lists !! l = Some ring → lists st' !! l = Some ring) ∧
  (∀ a items, loaded_dicts !! a = Some items →
     ∃ items', dicts st' !! a = Some items' ∧
               (∀ key, key ≠ "Distance" → items' !! key = items !! key) ∧
               (a ∉ attributes_list st' → items' = items)) ∧
  (∀ a, a ∈ attributes_list st' →
     ∃ items items' d,
       loaded_dicts !! a = Some items ∧
       dicts st' !! a = Some items' ∧
       items' !! "Distance" = Some (AFloat d) ∧
       (d <=? 1250.00)%float = true ∧
       (∀ key, key ≠ "Distance" → items' !! key = items !! key)) ∧
  (∀ i f a items geom ring_data more r,
     features !! i = Some f →
     attributes f = Some a →
     loaded_dicts !! a = Some items →
     year_within (items !! "Fire_Year") →
     geometry f = Some geom →
     rings geom = Some (ring_data :: more) →
     loaded_lists !! ring_data = Some r →
     distances_are_numbers CITY_LOCATION_West_Odessa_latlon (reproject <$> r) = true →
     some_vertex_within CITY_LOCATION_West_Odessa_latlon (reproject <$> r) = true →
     a ∈ attributes_list st').
Proof.
  intros st'.
  destruct (evolves_loop features (State loaded_lists loaded_dicts [] []))
    as ([ext Hlists] & _ & Hdicts).
  split_and!.
  - intros l ring Hl. unfold st', filter_cell. rewrite Hlists. by apply lookup_app_l_Some.
  - exact Hdicts.
  - intros a Ha. by apply filter_cell_rows_written.
  - intros i f a items geom ring_data more r. apply filter_cell_retains.
Qed.

(** The sample run: the dict of the fire of 2000 is a row of the table and
    holds the distance; the dicts of the other fires are as loaded. *)
Example sample_run_writes_distance :
  let st' := @filter_cell flat_pyproj sample_features sample_lists sample_dicts in
  attributes_list st' = [0; 0] ∧
  dicts st' !! 0
  = Some (<["Distance" := AFloat 5.3798214600006942]> {[ "Fire_Year" := AInt 2000 ]}) ∧
  dicts st' !! 1 = sample_dicts !! 1 ∧
  dicts st' !! 2 = sample_dicts !! 2.
Proof. vm_compute. done. Qed.

(** X7: a record whose year is a number outside [1963, 2023] is passed
    over without a trace: no row, no message, no change of the store; its
    geometry is not even looked at. *)
Theorem out_of_bounds_record_is_ignored `{Pyproj} f a items wf_year st :
  attributes f = Some a →
  dicts st !! a = Some items →
  items !! "Fire_Year" = Some wf_year →
  year_outside wf_year →
  loop_iteration st f = st.
Proof.
  intros Hattrs Ha Hy Hout. unfold loop_iteration, try_body. rewrite Hattrs. simpl.
  unfold mbind, M_bind, dict_getitem. simpl. rewrite Ha, Hy.
  by rewrite (year_outside_in_bounds _ _ Hout).
Qed.

Lemma out_of_bounds_record_is_ignored_witness :
  let f := Feature (Some 1) None in
  attributes f = Some 1 ∧
  dicts sample_state !! 1 = Some {[ "Fire_Year" := AInt 1950 ]} ∧
  ({[ "Fire_Year" := AInt 1950 ]} : gmap string attr_value) !! "Fire_Year"
  = Some (AInt 1950) ∧
  year_outside (AInt 1950) ∧
  @loop_iteration flat_pyproj sample_state f = sample_state.
Proof.
  assert (year_outside (AInt 1950)) as Hout by (simpl; lia).
  split; [reflexivity|]. split; [reflexivity|]. split; [reflexivity|]. split; [exact Hout|].
  exact (@out_of_bounds_record_is_ignored flat_pyproj (Feature (Some 1) None) 1
           {[ "Fire_Year" := AInt 1950 ]} (AInt 1950) sample_state
           eq_refl eq_refl eq_refl Hout).
Defined.

(** X8: a record without [attributes], without [Fire_Year], or whose
    [Fire_Year] is null or a string, is reported on the console with the
    text of the error, and nothing else changes. *)
Theorem missing_year_is_reported `{Pyproj} f st :
  (attributes f = None →
   loop_iteration st f = print "An error occurred : 'attributes'" st) ∧
  (∀ a items, attributes f = Some a → dicts st !! a = Some items →
     items !! "Fire_Year" = None →
     loop_iteration st f = print "An error occurred : 'Fire_Year'" st) ∧
  (∀ a items, attributes f = Some a → dicts st !! a = Some items →
     items !! "Fire_Year" = Some ANone →
     loop_iteration st f
     = print "An error occurred : '<=' not supported between instances of 'int' and 'NoneType'"
         st) ∧
  (∀ a items s, attributes f = Some a → dicts st !! a = Some items →
     items !! "Fire_Year" = Some (AStr s) →
     loop_iteration st f
     = print "An error occurred : '<=' not supported between instances of 'int' and 'str'"
         st).
Proof.
  unfold loop_iteration, try_body. split_and!.
  - by intros ->.
  - intros a items -> Ha Hy. simpl. unfold mbind, M_bind, dict_getitem. simpl.
    by rewrite Ha, Hy.
  - intros a items -> Ha Hy. simpl. unfold mbind, M_bind, dict_getitem. simpl.
    by rewrite Ha, Hy.
  - intros a items s -> Ha Hy. simpl. unfold mbind, M_bind, dict_getitem. simpl.
    by rewrite Ha, Hy.
Qed.

(** X9: a record within the bound of years that has no [geometry], whose
    geometry has no [rings], or whose [rings] is an empty list, is reported
    on the console with the text of the error, and nothing else changes. *)
Theorem missing_geometry_is_reported `{Pyproj} f a items st :
  attributes f = Some a →
  dicts st !! a = Some items →
  year_within (items !! "Fire_Year") →
  (geometry f = None →
   loop_iteration st f = print "An error occurred : 'geometry'" st) ∧
  (∀ geom, geometry f = Some geom → rings geom = None →
     loop_iteration st f = print "An error occurred : 'rings'" st) ∧
  (∀ geom, geometry f = Some geom → rings geom = Some [] →
     loop_iteration st f = print "An error occurred : list index out of range" st).
Proof.
  intros Hattrs Ha Hyear. unfold loop_iteration.
  rewrite (try_body_in_bounds f a items st Hattrs Ha Hyear). split_and!.
  - by intros ->.
  - intros geom -> Hrings. simpl. unfold mbind, M_bind. simpl. by rewrite Hrings.
  - intros geom -> Hrings. simpl. unfold mbind, M_bind. simpl. by rewrite Hrings.
Qed.

Lemma missing_geometry_is_reported_witness :
  let f := Feature (Some 2) (Some (Geometry None)) in
  attributes f = Some 2 ∧
  dicts sample_state !! 2 = Some {[ "Fire_Year" := AInt 2010 ]} ∧
  year_within (({[ "Fire_Year" := AInt 2010 ]} : gmap string attr_value) !! "Fire_Year") ∧
  @loop_iteration flat_pyproj sample_state f
  = @print "An error occurred : 'rings'" sample_state.
Proof.
  assert (year_within (({[ "Fire_Year" := AInt 2010 ]} : gmap string attr_value)
                         !! "Fire_Year")) as Hyear.
  { rewrite lookup_singleton_eq. simpl. lia. }
  split; [reflexivity|]. split; [reflexivity|]. split; [exact Hyear|].
  destruct (@missing_geometry_is_reported flat_pyproj
              (Feature (Some 2) (Some (Geometry None))) 2
              {[ "Fire_Year" := AInt 2010 ]} sample_state eq_refl eq_refl Hyear)
    as (_ & Hrings & _).
  exact (Hrings (Geometry None) eq_refl eq_refl).
Defined.

(** X10: a record within the bound of years whose first ring has no point
    is not retained: the empty result of the distance function makes
    [distance[0]] fail, which is reported as [list index out of range]. *)
Theorem empty_ring_record_is_reported `{Pyproj} f a items geom ring_data more st :
  attributes f = Some a →
  dicts st !! a = Some items →
  year_within (items !! "Fire_Year") →
  geometry f = Some geom →
  rings geom = Some (ring_data :: more) →
  lists st !! ring_data = Some [] →
  loop_iteration st f
  = print "An error occurred : list index out of range" (set_lists (lists st ++ [[]]) st).
Proof.
  intros Hattrs Ha Hyear Hgeom Hrings Hr. unfold loop_iteration.
  rewrite (try_body_in_bounds f a items st Hattrs Ha Hyear), Hgeom. simpl.
  unfold mbind, M_bind. simpl. rewrite Hrings. simpl.
  by rewrite (shortest_distance_empty _ _ _ Hr).
Qed.

Lemma empty_ring_record_is_reported_witness :
  let f := Feature (Some 2) (Some (Geometry (Some [1]))) in
  attributes f = Some 2 ∧
  dicts sample_state !! 2 = Some {[ "Fire_Year" := AInt 2010 ]} ∧
  year_within (({[ "Fire_Year" := AInt 2010 ]} : gmap string attr_value) !! "Fire_Year") ∧
  geometry f = Some (Geometry (Some [1])) ∧
  rings (Geometry (Some [1])) = Some [1] ∧
  lists sample_state !! 1 = Some [] ∧
  @loop_iteration flat_pyproj sample_state f
  = @print "An error occurred : list index out of range"
      (set_lists (lists sample_state ++ [[]]) sample_state).
Proof.
  assert (year_within (({[ "Fire_Year" := AInt 2010 ]} : gmap string attr_value)
                         !! "Fire_Year")) as Hyear.
  { rewrite lookup_singleton_eq. simpl. lia. }
  split; [reflexivity|]. split; [reflexivity|]. split; [exact Hyear|].
  split; [reflexivity|]. split; [reflexivity|]. split; [reflexivity|].
  exact (@empty_ring_record_is_reported flat_pyproj
           (Feature (Some 2) (Some (Geometry (Some [1])))) 2
           {[ "Fire_Year" := AInt 2010 ]} (Geometry (Some [1])) 1 [] sample_state
           eq_refl eq_refl Hyear eq_refl eq_refl eq_refl).
Defined.

(** X11: a record within the bound of years whose first vertex is at a
    distance that is a NaN is dropped without a trace: the comparison with
    the threshold is false, so there is no row, and there is no message. *)
Theorem nan_distance_record_is_dropped `{Pyproj} f a items geom ring_data more c r st :
  attributes f = Some a →
  dicts st !! a = Some items →
  year_within (items !! "Fire_Year") →
  geometry f = Some geom →
  rings geom = Some (ring_data :: more) →
  lists st !! ring_data = Some (c :: r) →
  is_nan (distance_in_miles CITY_LOCATION_West_Odessa_latlon (reproject c)) = true →
  loop_iteration st f = set_lists (lists st ++ [reproject <$> c :: r]) st.
Proof.
  intros Hattrs Ha Hyear Hgeom Hrings Hr Hnan.
  destruct (shortest_distance_nan CITY_LOCATION_West_Odessa_latlon _ _ _ _ Hr)
    as (d & p & Hrun & Hd & _).
  rewrite Hnan in Hd. apply (FloatOrder.nan_incomparable d 1250.00%float) in Hd as [_ Hle].
  unfold loop_iteration.
  rewrite (try_body_threshold f a items geom ring_data more d _ st _
             Hattrs Ha Hyear Hgeom Hrings Hrun).
  by rewrite Hle.
Qed.

Lemma nan_distance_record_is_dropped_witness :
  let f := Feature (Some 0) (Some (Geometry (Some [0]))) in
  attributes f = Some 0 ∧
  dicts sample_state !! 0 = Some {[ "Fire_Year" := AInt 2000 ]} ∧
  year_within (({[ "Fire_Year" := AInt 2000 ]} : gmap string attr_value) !! "Fire_Year") ∧
  geometry f = Some (Geometry (Some [0])) ∧
  rings (Geometry (Some [0])) = Some [0] ∧
  lists sample_state !! 0 = Some ((-102.40, 31.80)%float :: [(-102.30, 31.90)%float]) ∧
  is_nan (@distance_in_miles (const_pyproj nan) CITY_LOCATION_West_Odessa_latlon
            (@reproject (const_pyproj nan) (-102.40, 31.80)%float)) = true ∧
  @loop_iteration (const_pyproj nan) sample_state f
  = set_lists (lists sample_state
               ++ [@reproject (const_pyproj nan)
                     <$> (-102.40, 31.80)%float :: [(-102.30, 31.90)%float]])
      sample_state.
Proof.
  assert (year_within (({[ "Fire_Year" := AInt 2000 ]} : gmap string attr_value)
                         !! "Fire_Year")) as Hyear.
  { rewrite lookup_singleton_eq. simpl. lia. }
  assert (is_nan (@distance_in_miles (const_pyproj nan) CITY_LOCATION_West_Odessa_latlon
                    (@reproject (const_pyproj nan) (-102.40, 31.80)%float)) = true) as Hnan.
  { vm_compute. reflexivity. }
  split; [reflexivity|]. split; [reflexivity|]. split; [exact Hyear|].
  split; [reflexivity|]. split; [reflexivity|]. split; [reflexivity|]. split; [exact Hnan|].
  exact (@nan_distance_record_is_dropped (const_pyproj nan)
           (Feature (Some 0) (Some (Geometry (Some [0])))) 0
           {[ "Fire_Year" := AInt 2000 ]} (Geometry (Some [0])) 0 []
           (-102.40, 31.80)%float [(-102.30, 31.90)%float] sample_state
           eq_refl eq_refl Hyear eq_refl eq_refl eq_refl Hnan).
Defined.

(** X12: the distance attached to a retained record is the minimum over its
    first ring.  A record within the bound of years, whose first ring has
    distances that are numbers and a vertex within the threshold, is
    retained in the iteration: [Distance] is set to the distance [d] of a
    vertex [p] of the reprojected ring, with [d] at most the distance of
    every vertex and at most 1250.00, and the dict is appended to
    [attributes_list]. *)
Theorem retained_row_carries_minimum `{Pyproj} f a items geom ring_data more r st :
  attributes f = Some a →
  dicts st !! a = Some items →
  year_within (items !! "Fire_Year") →
  geometry f = Some geom →
  rings geom = Some (ring_data :: more) →
  lists st !! ring_data = Some r →
  distances_are_numbers CITY_LOCATION_West_Odessa_latlon (reproject <$> r) = true →
  some_vertex_within CITY_LOCATION_West_Odessa_latlon (reproject <$> r) = true →
  ∃ d p,
    loop_iteration st f
    = retained a items d (set_lists (lists st ++ [reproject <$> r]) st) ∧
    p ∈ reproject <$> r ∧
    d = distance_in_miles CITY_LOCATION_West_Odessa_latlon p ∧
    (d <=? 1250.00)%float = true ∧
    ∀ q, q ∈ reproject <$> r →
         (d <=? distance_in_miles CITY_LOCATION_West_Odessa_latlon q)%float = true.
Proof.
  intros Hattrs Ha Hyear Hgeom Hrings Hr Hnum Hwithin.
  destruct (try_body_retains f a items geom ring_data more r st
              Hattrs Ha Hyear Hgeom Hrings Hr Hnum Hwithin) as (d & p & Hinv & Hd & Hrun).
  exists d, p. unfold loop_iteration. rewrite Hrun. split_and!; [done| | |done|].
  - by eapply closest_so_far_elem.
  - by destruct Hinv.
  - intros q Hq. by eapply closest_so_far_le.
Qed.

Lemma retained_row_carries_minimum_witness :
  let f := Feature (Some 0) (Some (Geometry (Some [0; 2]))) in
  attributes f = Some 0 ∧
  dicts sample_state !! 0 = Some {[ "Fire_Year" := AInt 2000 ]} ∧
  year_within (({[ "Fire_Year" := AInt 2000 ]} : gmap string attr_value) !! "Fire_Year") ∧
  geometry f = Some (Geometry (Some [0; 2])) ∧
  rings (Geometry (Some [0; 2])) = Some [0; 2] ∧
  lists sample_state !! 0 = Some sample_ring ∧
  @distances_are_numbers flat_pyproj CITY_LOCATION_West_Odessa_latlon
    (@reproject flat_pyproj <$> sample_ring) = true ∧
  @some_vertex_within flat_pyproj CITY_LOCATION_West_Odessa_latlon
    (@reproject flat_pyproj <$> sample_ring) = true ∧
  ∃ d p,
    @loop_iteration flat_pyproj sample_state f
    = retained 0 {[ "Fire_Year" := AInt 2000 ]} d
        (set_lists (lists sample_state ++ [@reproject flat_pyproj <$> sample_ring])
           sample_state) ∧
    p ∈ @reproject flat_pyproj <$> sample_ring ∧
    d = @distance_in_miles flat_pyproj CITY_LOCATION_West_Odessa_latlon p ∧
    (d <=? 1250.00)%float = true ∧
    ∀ q, q ∈ @reproject flat_pyproj <$> sample_ring →
         (d <=? @distance_in_miles flat_pyproj CITY_LOCATION_West_Odessa_latlon q)%float
         = true.
Proof.
  assert (year_within (({[ "Fire_Year" := AInt 2000 ]} : gmap string attr_value)
                         !! "Fire_Year")) as Hyear.
  { rewrite lookup_singleton_eq. simpl. lia. }
  assert (@distances_are_numbers flat_pyproj CITY_LOCATION_West_Odessa_latlon
            (@reproject flat_pyproj <$> sample_ring) = true) as Hnum.
  { vm_compute. reflexivity. }
  assert (@some_vertex_within flat_pyproj CITY_LOCATION_West_Odessa_latlon
            (@reproject flat_pyproj <$> sample_ring) = true) as Hwithin.
  { vm_compute. reflexivity. }
  split; [reflexivity|]. split; [reflexivity|]. split; [exact Hyear|].
  split; [reflexivity|]. split; [reflexivity|]. split; [reflexivity|].
  split; [exact Hnum|]. split; [exact Hwithin|].
  exact (@retained_row_carries_minimum flat_pyproj
           (Feature (Some 0) (Some (Geometry (Some [0; 2])))) 0
           {[ "Fire_Year" := AInt 2000 ]} (Geometry (Some [0; 2])) 0 [2]
           sample_ring sample_state
           eq_refl eq_refl Hyear eq_refl eq_refl eq_refl Hnum Hwithin).
Defined.

(** X13: the filter loses no record.  A feature of the collection whose
    year, as loaded, is within [1963, 2023] and whose first ring, as
    loaded, has distances that are numbers and a vertex within 1250.00
    miles has its attribute dict in the exported table. *)
Theorem qualifying_record_is_retained `{Pyproj}
    features loaded_lists loaded_dicts i f a items geom ring_data more r :
  features !! i = Some f →
  attributes f = Some a →
  loaded_dicts !! a = Some items →
  year_within (items !! "Fire_Year") →
  geometry f = Some geom →
  rings geom = Some (ring_data :: more) →
  loaded_lists !! ring_data = Some r →
  distances_are_numbers CITY_LOCATION_West_Odessa_latlon (reproject <$> r) = true →
  some_vertex_within CITY_LOCATION_West_Odessa_latlon (reproject <$> r) = true →
  a ∈ attributes_list (filter_cell features loaded_lists loaded_dicts).
Proof.
  apply filter_cell_retains.
Qed.

Lemma qualifying_record_is_retained_witness :
  let f := Feature (Some 0) (Some (Geometry (Some [0; 2]))) in
  sample_features !! 0 = Some f ∧
  attributes f = Some 0 ∧
  sample_dicts !! 0 = Some {[ "Fire_Year" := AInt 2000 ]} ∧
  year_within (({[ "Fire_Year" := AInt 2000 ]} : gmap string attr_value) !! "Fire_Year") ∧
  geometry f = Some (Geometry (Some [0; 2])) ∧
  rings (Geometry (Some [0; 2])) = Some [0; 2] ∧
  sample_lists !! 0 = Some sample_ring ∧
  @distances_are_numbers flat_pyproj CITY_LOCATION_West_Odessa_latlon
    (@reproject flat_pyproj <$> sample_ring) = true ∧
  @some_vertex_within flat_pyproj CITY_LOCATION_West_Odessa_latlon
    (@reproject flat_pyproj <$> sample_ring) = true ∧
  0 ∈ attributes_list (@filter_cell flat_pyproj sample_features sample_lists sample_dicts).
Proof.
  assert (year_within (({[ "Fire_Year" := AInt 2000 ]} : gmap string attr_value)
                         !! "Fire_Year")) as Hyear.
  { rewrite lookup_singleton_eq. simpl. lia. }
  assert (@distances_are_numbers flat_pyproj CITY_LOCATION_West_Odessa_latlon
            (@reproject flat_pyproj <$> sample_ring) = true) as Hnum.
  { vm_compute. reflexivity. }
  assert (@some_vertex_within flat_pyproj CITY_LOCATION_West_Odessa_latlon
            (@reproject flat_pyproj <$> sample_ring) = true) as Hwithin.
  { vm_compute. reflexivity. }
  split; [reflexivity|]. split; [reflexivity|]. split; [reflexivity|].
  split; [exact Hyear|]. split; [reflexivity|]. split; [reflexivity|].
  split; [reflexivity|]. split; [exact Hnum|]. split; [exact Hwithin|].
  exact (@qualifying_record_is_retained flat_pyproj sample_features sample_lists
           sample_dicts 0 (Feature (Some 0) (Some (Geometry (Some [0; 2])))) 0
           {[ "Fire_Year" := AInt 2000 ]} (Geometry (Some [0; 2])) 0 [2] sample_ring
           eq_refl eq_refl eq_refl Hyear eq_refl eq_refl eq_refl Hnum Hwithin).
Defined.

(** X14: the rows of the table are attribute dicts of the features, in the
    order of the features, each feature giving at most one row. *)
Theorem rows_follow_feature_order `{Pyproj} features loaded_lists loaded_dicts :
  attributes_list (filter_cell features loaded_lists loaded_dicts)
  `sublist_of` omap attributes features.
Proof.
  unfold filter_cell.
  destruct (loop_rows_and_console features (State loaded_lists loaded_dicts [] []))
    as (rows & lines & -> & _ & Hsub & _).
  done.
Qed.

(** X15: a record gives a row or a message, never both: the rows and the
    lines of the console together are no more than the features. *)
Theorem rows_and_messages_bounded `{Pyproj} features loaded_lists loaded_dicts :
  length (attributes_list (filter_cell features loaded_lists loaded_dicts))
  + length (stdout (filter_cell features loaded_lists loaded_dicts))
  ≤ length features.
Proof.
  unfold filter_cell.
  destruct (loop_rows_and_console features (State loaded_lists loaded_dicts [] []))
    as (rows & lines & -> & -> & _ & Hlen & _).
  done.
Qed.

(** X16: [print] is called for error reports only: every line that the
    loop writes to standard output is [An error occurred : ] followed by
    the text of an error.  (The progress bar of [tqdm] goes to standard
    error, which [stdout] does not hold.) *)
Theorem console_holds_error_reports `{Pyproj} features loaded_lists loaded_dicts :
  Forall (λ line, ∃ e, line = "An error occurred : " +:+ exn_str e)
         (stdout (filter_cell features loaded_lists loaded_dicts)).
Proof.
  unfold filter_cell.
  destruct (loop_rows_and_console features (State loaded_lists loaded_dicts [] []))
    as (rows & lines & _ & -> & _ & _ & Hlines).
  done.
Qed.
